(** * SuperLig RAG chatbot: the text pipeline and the question handler

  A shallow embedding of [data_loader.py] (text normalisation, chunking,
  document assembly) and of [rag_pipeline.py] ([TurkishRAGPipeline.query]),
  followed by the properties of these functions.

  Python values are modelled as follows.
  - [str] is a list of Unicode code points ([N]); [len] counts code points.
  - [int] is [Z]; slices take [Z] indices with Python's treatment of
    negative and out-of-range bounds.
  - The float product [chunk_size * 0.7] is computed exactly as IEEE-754
    binary64 does (round to nearest, ties to even) on integers.
  - A [dict] is an association list in insertion order.
  - A [while] loop takes a fuel argument; [OutOfFuel] means the loop was
    still running when the fuel ran out.
  - The Unicode character tables of CPython ([str.isspace], [str.isalnum])
    are not part of the repository: they are a class parameter. *)

From Stdlib Require Import List ZArith NArith Bool Lia Ascii String.
Import ListNotations.

(** ** Strings and character tables *)

Module Unicode.

Definition char := N.
Definition str := list char.

(** CPython's [Py_UNICODE_ISSPACE] and [Py_UNICODE_ISALNUM].  Both
    [re]'s [\s] and [str.strip()] use the first, [\w] is the second plus
    the underscore.  U+0020 is whitespace in every version of the table. *)
Class Tables := {
  isspace : char -> bool;
  isalnum : char -> bool;
  isspace_SP : isspace 32%N = true
}.

(** Decoding of a UTF-8 byte sequence, used to write literals. *)
Fixpoint utf8_decode (bs : list N) : str :=
  match bs with
  | [] => []
  | b0 :: r0 =>
      if (b0 <? 128)%N then b0 :: utf8_decode r0
      else match r0 with
      | [] => []
      | b1 :: r1 =>
          if (b0 <? 224)%N
          then ((b0 - 192) * 64 + (b1 - 128))%N :: utf8_decode r1
          else match r1 with
          | [] => []
          | b2 :: r2 =>
              if (b0 <? 240)%N
              then ((b0 - 224) * 4096 + (b1 - 128) * 64 + (b2 - 128))%N
                     :: utf8_decode r2
              else match r2 with
              | [] => []
              | b3 :: r3 =>
                  ((b0 - 240) * 262144 + (b1 - 128) * 4096
                   + (b2 - 128) * 64 + (b3 - 128))%N :: utf8_decode r3
              end
          end
      end
  end.

Definition text (s : string) : str :=
  utf8_decode (map N_of_ascii (list_ascii_of_string s)).

Definition in_range (lo hi c : N) : bool := ((lo <=? c) && (c <=? hi))%N.

(** The ASCII block of the two tables (code points below 128); above it
    this instance answers [false].  It serves to run the model on ASCII
    inputs. *)
Definition ascii_isspace (c : char) : bool :=
  in_range 9 13 c || in_range 28 32 c.

Definition ascii_isalnum (c : char) : bool :=
  in_range 48 57 c || in_range 65 90 c || in_range 97 122 c.

Definition ascii_tables : Tables :=
  {| isspace := ascii_isspace; isalnum := ascii_isalnum;
     isspace_SP := eq_refl |}.

End Unicode.

Import Unicode.

(** ** Python built-ins used by the source *)

Module Py.

Inductive exn := PyExc (cls : string) (msg : str).

Definition exn_str (e : exn) : str := let 'PyExc _ m := e in m.

(** Result of running a piece of code. *)
Inductive outcome (A : Type) :=
| Returns (a : A)
| Raises (e : exn)
| OutOfFuel.
Arguments Returns {A} a.
Arguments Raises {A} e.
Arguments OutOfFuel {A}.

Definition bind {A B} (m : outcome A) (k : A -> outcome B) : outcome B :=
  match m with
  | Returns a => k a
  | Raises e => Raises e
  | OutOfFuel => OutOfFuel
  end.

(** Values held by a [Dict[str, Any]]; a float is [m * 2^e]. *)
Unset Elimination Schemes.
Inductive pyval :=
| VNone
| VInt (z : Z)
| VFloat (m e : Z)
| VStr (s : str)
| VList (l : list pyval)
| VDict (d : list (string * pyval)).
Set Elimination Schemes.

Definition dict := list (string * pyval).

Fixpoint dict_get (d : dict) (k : string) : option pyval :=
  match d with
  | [] => None
  | (k', v) :: r => if String.eqb k' k then Some v else dict_get r k
  end.

(** [k in d] *)
Definition dict_has (d : dict) (k : string) : bool :=
  match dict_get d k with Some _ => true | None => false end.

(** [d.get(k, default)] *)
Definition dict_get_default (d : dict) (k : string) (dflt : pyval) : pyval :=
  match dict_get d k with Some v => v | None => dflt end.

Definition dict_keys (d : dict) : list string := map fst d.

(** Truth value of an object, as [not x] tests it. *)
Definition truthy (v : pyval) : bool :=
  match v with
  | VNone => false
  | VInt z => negb (z =? 0)%Z
  | VFloat m _ => negb (m =? 0)%Z
  | VStr s => match s with [] => false | _ => true end
  | VList l => match l with [] => false | _ => true end
  | VDict d => match d with [] => false | _ => true end
  end.

Definition len (s : str) : Z := Z.of_nat (List.length s).

(** [s[a:b]] *)
Definition py_slice (s : str) (a b : Z) : str :=
  let n := len s in
  let clip i := if (i <? 0)%Z then Z.max 0 (i + n) else Z.min i n in
  let a' := clip a in
  let b' := clip b in
  firstn (Z.to_nat (b' - a')) (skipn (Z.to_nat a') s).

(** [s.rfind(c)] for a one-character [c]: the highest index, or -1. *)
Fixpoint rfind (s : str) (c : char) : Z :=
  match s with
  | [] => (-1)%Z
  | x :: r =>
      let k := rfind r c in
      if (0 <=? k)%Z then (k + 1)%Z
      else if (x =? c)%N then 0%Z else (-1)%Z
  end.

Section WithTables.
Context {T : Tables}.

Fixpoint lstrip (s : str) : str :=
  match s with
  | [] => []
  | c :: r => if isspace c then lstrip r else s
  end.

Definition rstrip (s : str) : str := rev (lstrip (rev s)).

(** [s.strip()] *)
Definition strip (s : str) : str := rstrip (lstrip s).

End WithTables.

(** Decimal rendering of a non-negative [int], as [str(n)] gives it. *)
Fixpoint digits (fuel : nat) (n : N) (acc : str) : str :=
  match fuel with
  | O => acc
  | S f =>
      let acc' := (48 + n mod 10)%N :: acc in
      if (n <? 10)%N then acc' else digits f (n / 10)%N acc'
  end.

Definition str_of_nat (n : nat) : str := digits (S n) (N.of_nat n) [].

End Py.

Import Py.

(** ** IEEE-754 binary64 arithmetic on the values the chunker needs *)

Module Float64.

Open Scope Z_scope.

(** [0.7] is the double [d07 / 2^53]. *)
Definition d07 : Z := 6305039478318694.

(** Rounding of a positive integer to 53 significant bits, to nearest,
    ties to even. *)
Definition round53 (m : Z) : Z :=
  let s := Z.log2 m - 52 in
  if s <=? 0 then m
  else
    let q := m / 2 ^ s in
    let r := m mod 2 ^ s in
    let h := 2 ^ (s - 1) in
    (if (h <? r) || ((r =? h) && Z.odd q) then q + 1 else q) * 2 ^ s.

(** [float(n)] as an exact integer.  Python raises [OverflowError] when
    [n] rounds to [2^1024] or beyond in absolute value; that error is not
    modelled, so this definition stands for [float(n)] only below that
    size.  The statements that depend on the product for an arbitrary
    window carry a bound on the window. *)
Definition of_int (n : Z) : Z := Z.sgn n * round53 (Z.abs n).

(** [n * 0.7]: the numerator of the product over [2^53]. *)
Definition mul_0_7 (n : Z) : Z :=
  let f := of_int n in
  Z.sgn f * round53 (Z.abs f * d07).

(** [i > n * 0.7], an [int] compared with a [float] (exact in Python). *)
Definition int_gt_mul_0_7 (i n : Z) : bool := mul_0_7 n <? i * 2 ^ 53.

End Float64.

(** ** data_loader.py: SuperLigDataLoader *)

Module DataLoader.

Import Float64.
Open Scope Z_scope.

Definition SP : char := 32%N.
Definition DOT : char := 46%N.
Definition QUESTION : char := 63%N.
Definition EXCLAMATION : char := 33%N.
Definition UNDERSCORE : char := 95%N.

(** The letters and marks listed in the character class of
    [preprocess_text]. *)
Definition turkish_letters : str := text "çğıöşüÇĞIİÖŞÜ".
Definition kept_marks : str := text ".,!?()-".

Definition char_in (c : char) (l : str) : bool := existsb (N.eqb c) l.

Section WithTables.
Context {T : Tables}.

(** [re.sub(r'\s+', ' ', text)]: every maximal run of whitespace becomes
    one space.  [in_run] tells that the previous character was whitespace. *)
Fixpoint collapse_ws (in_run : bool) (s : str) : str :=
  match s with
  | [] => []
  | c :: r =>
      if isspace c
      then (if in_run then collapse_ws true r else SP :: collapse_ws true r)
      else c :: collapse_ws false r
  end.

(** [\w] *)
Definition is_word (c : char) : bool := isalnum c || (c =? UNDERSCORE)%N.

(** The characters that [[^\w\sçğıöşüÇĞIİÖŞÜ.,!?()-]] does not match. *)
Definition allowed (c : char) : bool :=
  is_word c || isspace c || char_in c turkish_letters || char_in c kept_marks.

Definition preprocess_text (t : str) : str :=
  let t := collapse_ws false t in
  let t := filter allowed t in
  strip t.

(** The body of the [while] loop of [chunk_text] up to the [append]: the
    chunk before [strip()] and the value of [end]. *)
Definition carve (t : str) (chunk_size start : Z) : str * Z :=
  let end_ := start + chunk_size in
  let chunk := py_slice t start end_ in
  if end_ <? len t then
    let last_period := rfind chunk DOT in
    let last_question := rfind chunk QUESTION in
    let last_exclamation := rfind chunk EXCLAMATION in
    let last_sentence_end :=
      Z.max (Z.max last_period last_question) last_exclamation in
    if int_gt_mul_0_7 last_sentence_end chunk_size
    then (py_slice chunk 0 (last_sentence_end + 1),
          start + last_sentence_end + 1)
    else (chunk, end_)
  else (chunk, end_).

Fixpoint chunk_loop (fuel : nat) (t : str) (chunk_size overlap start : Z)
    (chunks : list str) : outcome (list str) :=
  if start <? len t then
    match fuel with
    | O => OutOfFuel
    | S fuel' =>
        let '(chunk, end_) := carve t chunk_size start in
        let chunks := chunks ++ [strip chunk] in
        let start := end_ - overlap in
        if len t <=? start then Returns chunks
        else chunk_loop fuel' t chunk_size overlap start chunks
    end
  else Returns chunks.

Definition chunk_text (fuel : nat) (t : str) (chunk_size overlap : Z)
    : outcome (list str) :=
  if len t <=? chunk_size then Returns [t]
  else chunk_loop fuel t chunk_size overlap 0 [].

(** A Haystack [Document] as [create_documents] builds it. *)
Record Document := { content : str; meta : dict }.

(** The [for key, value in item.items()] search of the [else] branch. *)
Fixpoint first_long_string (items : dict) : pyval :=
  match items with
  | [] => VNone
  | (_, VStr s) :: r => if 100 <? len s then VStr s else first_long_string r
  | _ :: r => first_long_string r
  end.

(** The [if 'text' in item ... else ...] chain; [VNone] is [text = None]. *)
Definition resolve_text (item : dict) : pyval :=
  if dict_has item "text" then dict_get_default item "text" VNone
  else if dict_has item "content" then dict_get_default item "content" VNone
  else if dict_has item "article" then dict_get_default item "article" VNone
  else if dict_has item "body" then dict_get_default item "body" VNone
  else first_long_string item.

Definition make_document (item : dict) (i total : Z) (chunk : str) : Document :=
  {| content := chunk;
     meta := [ ("title"%string, dict_get_default item "title" (VStr (text "Unknown")));
               ("url"%string, dict_get_default item "url" (VStr []));
               ("chunk_id"%string, VInt i);
               ("total_chunks"%string, VInt total);
               ("source"%string, VStr (text "wikipedia")) ] |}.

(** [for i, chunk in enumerate(chunks)], from index [i] on. *)
Fixpoint emit_chunks (item : dict) (total i : Z) (chunks : list str)
    (documents : list Document) : list Document :=
  match chunks with
  | [] => documents
  | chunk :: rest =>
      if len (strip chunk) <? 50
      then emit_chunks item total (i + 1) rest documents
      else emit_chunks item total (i + 1) rest
             (documents ++ [make_document item i total chunk])
  end.

(** The defaults of [chunk_text]. *)
Definition default_chunk_size : Z := 500.
Definition default_overlap : Z := 50.

(** [re.sub] on an object that is not a string. *)
Definition not_a_string : exn :=
  PyExc "TypeError" (text "expected string or bytes-like object").

(** The [for item in data] loop.  [chunk_text] is run with as much fuel as
    the text has characters, which its loop never exhausts with the default
    window and overlap. *)
Fixpoint create_documents_loop (data : list dict) (documents : list Document)
    : outcome (list Document) :=
  match data with
  | [] => Returns documents
  | item :: rest =>
      let t := resolve_text item in
      if negb (truthy t) then create_documents_loop rest documents
      else
        match t with
        | VStr s =>
            let s := preprocess_text s in
            bind (chunk_text (List.length s) s default_chunk_size default_overlap)
              (fun chunks =>
                 create_documents_loop rest
                   (emit_chunks item (Z.of_nat (List.length chunks)) 0 chunks documents))
        | _ => Raises not_a_string
        end
  end.

Definition create_documents (data : list dict) : outcome (list Document) :=
  create_documents_loop data [].

End WithTables.

End DataLoader.

(** ** rag_pipeline.py: TurkishRAGPipeline.query *)

Module RagPipeline.

Open Scope Z_scope.

(** A call of a collaborator returns or raises an [Exception]. *)
Inductive result (A : Type) :=
| Ok (a : A)
| Err (e : exn).
Arguments Ok {A} a.
Arguments Err {A} e.

Definition and_then {A B} (m : result A) (k : A -> result B) : result B :=
  match m with
  | Ok a => k a
  | Err e => Err e
  end.

Notation "x <- m ;; k" := (and_then m (fun x => k))
  (at level 61, m at next level, right associativity).

(** A document as the retriever hands it out; [doc_score = None] stands
    for a missing [score] attribute. *)
Record HaystackDocument := {
  doc_content : str;
  doc_meta : dict;
  doc_score : option pyval
}.

(** What [pipeline.run] returns: component name, then output name. *)
Definition run_result := list (string * list (string * list HaystackDocument)).

Fixpoint lookup {V} (d : list (string * V)) (k : string) : option V :=
  match d with
  | [] => None
  | (k', v) :: r => if String.eqb k' k then Some v else lookup r k
  end.

(** The Haystack pipeline and the Gemini client, by their interface. *)
Class Collaborators := {
  Model : Type;
  Response : Type;
  pipeline_run : Z -> str -> result run_result;
  generate_content : Model -> str -> result Response;
  response_text : Response -> result str
}.

Definition NLNL : str := [10%N; 10%N].

(** ["\n\n".join(parts)] *)
Fixpoint join (sep : str) (parts : list str) : str :=
  match parts with
  | [] => []
  | [p] => p
  | p :: rest => p ++ sep ++ join sep rest
  end.

Definition prompt_head : str :=
  text "Sen Türkçe bir futbol asistanısın. Aşağıdaki bağlam bilgilerini kullanarak kullanıcının sorusunu Türkçe olarak yanıtla."
  ++ NLNL ++ text "Bağlam:" ++ [10%N].

Definition build_prompt (context_text question : str) : str :=
  prompt_head ++ context_text ++ NLNL ++ text "Soru: " ++ question
  ++ NLNL ++ text "Yanıt:".

Definition no_key_answer (n : nat) : str :=
  text "API key bulunamadı. " ++ str_of_nat n
  ++ text " belge bulundu. API key ayarlayarak tam yanıt alabilirsiniz.".

Definition apology (e : exn) : str :=
  text "Üzgünüm, sorunuzu yanıtlayamadım. Hata: " ++ exn_str e.

Definition format_document (doc : HaystackDocument) : pyval :=
  VDict [ ("content"%string, VStr (doc_content doc));
          ("title"%string, dict_get_default (doc_meta doc) "title" (VStr (text "Unknown")));
          ("url"%string, dict_get_default (doc_meta doc) "url" (VStr []));
          ("score"%string, match doc_score doc with Some v => v | None => VFloat 0 0 end) ].

Definition doc_text (d : pyval) : str :=
  match d with
  | VDict kv => match dict_get kv "content" with Some (VStr s) => s | _ => [] end
  | _ => []
  end.

Section WithCollaborators.
Context {C : Collaborators}.

(** The fields of [self] that [query] reads or writes, and the standard
    output. *)
Record TurkishRAGPipeline := {
  model : option Model;
  retriever_top_k : Z;
  stdout : list str
}.

Definition set_top_k (self : TurkishRAGPipeline) (top_k : Z) : TurkishRAGPipeline :=
  {| model := model self; retriever_top_k := top_k; stdout := stdout self |}.

Definition print (self : TurkishRAGPipeline) (line : str) : TurkishRAGPipeline :=
  {| model := model self; retriever_top_k := retriever_top_k self;
     stdout := stdout self ++ [line] |}.

(** [result.get('retriever', {}).get('documents', [])] *)
Definition retrieved_documents (r : run_result) : list HaystackDocument :=
  match lookup r "retriever" with
  | None => []
  | Some outputs =>
      match lookup outputs "documents" with
      | None => []
      | Some documents => documents
      end
  end.

(** The body of the [try] block, after [top_k] has been stored. *)
Definition query_body (self : TurkishRAGPipeline) (question : str) : result dict :=
  r <- pipeline_run (retriever_top_k self) question ;;
  let documents := retrieved_documents r in
  let retrieved_docs := map format_document documents in
  answer <-
    match model self with
    | Some m =>
        let context_text := join NLNL (map doc_text retrieved_docs) in
        let prompt := build_prompt context_text question in
        response <- generate_content m prompt ;;
        response_text response
    | None => Ok (no_key_answer (List.length retrieved_docs))
    end ;;
  Ok [ ("answer"%string, VStr answer);
       ("documents"%string, VList retrieved_docs);
       ("query"%string, VStr question) ].

Definition query (self : TurkishRAGPipeline) (question : str) (top_k : Z)
    : dict * TurkishRAGPipeline :=
  let self :=
    if negb (retriever_top_k self =? top_k) then set_top_k self top_k else self in
  match query_body self question with
  | Ok response => (response, self)
  | Err e =>
      let self := print self (text "Error in RAG pipeline query: " ++ exn_str e) in
      ([ ("answer"%string, VStr (apology e));
         ("documents"%string, VList []);
         ("query"%string, VStr question) ], self)
  end.

End WithCollaborators.

End RagPipeline.

Import DataLoader.

(** * Vocabulary of the statements *)

Module Spec.

Open Scope Z_scope.

Section WithTables.
Context {T : Tables}.

(** No whitespace at the front. *)
Definition starts_clean (s : str) : Prop :=
  match s with
  | [] => True
  | c :: _ => isspace c = false
  end.

(** No whitespace at the back. *)
Definition ends_clean (s : str) : Prop := starts_clean (rev s).

Definition all_allowed (s : str) : Prop := Forall (fun c => allowed c = true) s.

(** What [preprocess_text] returns: allowed characters only, no whitespace
    at either end. *)
Definition clean (s : str) : Prop :=
  all_allowed s /\ starts_clean s /\ ends_clean s.

(** Whitespace occurs only as single spaces; [prev] tells that a
    whitespace character precedes. *)
Fixpoint single_spaced (prev : bool) (s : str) : bool :=
  match s with
  | [] => true
  | c :: r =>
      if isspace c then (c =? SP)%N && negb prev && single_spaced true r
      else single_spaced false r
  end.

(** ['.'], ['?'] or ['!'] *)
Definition is_sentence_end (c : char) : bool :=
  (c =? DOT)%N || (c =? QUESTION)%N || (c =? EXCLAMATION)%N.

(** [k] is the index of the rightmost sentence end of [w], or -1 when [w]
    has none. *)
Definition last_sentence_end_at (w : str) (k : Z) : Prop :=
  -1 <= k < len w
  /\ (0 <= k -> is_sentence_end (nth (Z.to_nat k) w 0%N) = true)
  /\ (forall j, k < j < len w -> is_sentence_end (nth (Z.to_nat j) w 0%N) = false).

(** The chunk cut from window [(a, b)] of [t]. *)
Definition window_chunk (t : str) (w : Z * Z) : str :=
  strip (py_slice t (fst w) (snd w)).

(** Windows [(start, end)] as the loop takes them from cursor [lo] on: each
    is non-empty and starts inside the text, the next one starts [overlap]
    before the end of the previous one and strictly after its start, and
    the last one ends at or past [len t + overlap]. *)
Fixpoint windows_from (t : str) (overlap lo : Z) (ws : list (Z * Z)) : Prop :=
  match ws with
  | [] => len t <= lo
  | (a, b) :: r =>
      a = lo /\ a < len t /\ a < b /\ a < b - overlap
      /\ windows_from t overlap (b - overlap) r
  end.

(** [enumerate(l)], counting from [i]. *)
Fixpoint enumerate {A} (i : Z) (l : list A) : list (Z * A) :=
  match l with
  | [] => []
  | x :: r => (i, x) :: enumerate (i + 1) r
  end.

(** The test that keeps a chunk in [create_documents]. *)
Definition survives (c : str) : bool := negb (len (strip c) <? 50).

(** The documents one record yields from its chunks. *)
Definition record_documents (item : dict) (chunks : list str) : list Document :=
  map (fun jc => make_document item (fst jc) (Z.of_nat (List.length chunks)) (snd jc))
    (filter (fun jc => survives (snd jc)) (enumerate 0 chunks)).

(** The four field names [create_documents] knows, in the order it asks
    for them. *)
Definition known_fields : list string :=
  ["text"; "content"; "article"; "body"]%string.

(** The value of the first of [keys] that is a key of [item]. *)
Fixpoint first_present (item : dict) (keys : list string) : option pyval :=
  match keys with
  | [] => None
  | k :: r =>
      match dict_get item k with
      | Some v => Some v
      | None => first_present item r
      end
  end.

Definition is_long_string (v : pyval) : bool :=
  match v with
  | VStr s => 100 <? len s
  | _ => false
  end.

(** Text resolution in words: the value of the first known field that is
    present, else the first string-valued field longer than 100
    characters, else [None]. *)
Definition resolve_text_spec (item : dict) : pyval :=
  match first_present item known_fields with
  | Some v => v
  | None =>
      match find (fun kv => is_long_string (snd kv)) item with
      | Some kv => snd kv
      | None => VNone
      end
  end.

(** The [chunk_id] and [total_chunks] of each document. *)
Definition numbering (docs : list Document) : list (option pyval * option pyval) :=
  map (fun d => (dict_get (meta d) "chunk_id", dict_get (meta d) "total_chunks")) docs.

End WithTables.

End Spec.

Import Spec.

Import RagPipeline.

Module RagSpec.

Section WithCollaborators.
Context {C : Collaborators}.

(** The prompt [query] sends for the documents that retrieval returned. *)
Definition generation_prompt (r : run_result) (question : str) : str :=
  build_prompt (join NLNL (map doc_content (retrieved_documents r))) question.

(** The generation step: the call, then reading [response.text]. *)
Definition generation (m : Model) (prompt : str) : result str :=
  response <- generate_content m prompt ;; response_text response.

(** The response of the catch-all handler. *)
Definition apology_response (e : exn) (question : str) : dict :=
  [ ("answer"%string, VStr (apology e));
    ("documents"%string, VList []);
    ("query"%string, VStr question) ].

End WithCollaborators.

(** A retriever that finds one document and a model whose call raises. *)
Definition sample_document : HaystackDocument :=
  {| doc_content := text "Galatasaray 1905";
     doc_meta := [("title"%string, VStr (text "Galatasaray SK"))];
     doc_score := Some (VFloat 3 (-2)) |}.

Definition failing_generation : Collaborators :=
  {| Model := unit;
     Response := unit;
     pipeline_run := fun _ _ =>
       Ok [("retriever"%string, [("documents"%string, [sample_document])])];
     generate_content := fun _ _ => Err (PyExc "RuntimeError" (text "quota"));
     response_text := fun _ => Ok [] |}.

(** A pipeline object with a model configured. *)
Definition failing_pipeline (top_k : Z) : @TurkishRAGPipeline failing_generation :=
  @Build_TurkishRAGPipeline failing_generation (Some tt) top_k [].

End RagSpec.

Import RagSpec.

(** ** rag_pipeline.py: the other entry points *)

Module RagEntryPoints.

Open Scope Z_scope.

(** [pipeline.run] called with the embedder input only, as
    [get_context_only] does. *)
Class RetrievalRun := {
  pipeline_run_retrieval : Z -> str -> result run_result
}.

(** The four fields of a formatted document. *)
Definition document_fields (doc : HaystackDocument) : dict :=
  [ ("content"%string, VStr (doc_content doc));
    ("title"%string, dict_get_default (doc_meta doc) "title" (VStr (text "Unknown")));
    ("url"%string, dict_get_default (doc_meta doc) "url" (VStr []));
    ("score"%string, match doc_score doc with Some v => v | None => VFloat 0 0 end) ].

(** [str(KeyError(k))] for a key without quotes or escapes. *)
Definition key_error (k : string) : exn :=
  PyExc "KeyError" ([39%N] ++ text k ++ [39%N]).

(** [d[k]] *)
Definition getitem (d : dict) (k : string) : result pyval :=
  match dict_get d k with
  | Some v => Ok v
  | None => Err (key_error k)
  end.

(** [type(v).__name__] *)
Definition type_name (v : pyval) : str :=
  match v with
  | VNone => text "NoneType"
  | VInt _ => text "int"
  | VFloat _ _ => text "float"
  | VStr _ => text "str"
  | VList _ => text "list"
  | VDict _ => text "dict"
  end.

(** [[doc['content'] for doc in context_docs]] *)
Fixpoint contents (docs : list dict) : result (list pyval) :=
  match docs with
  | [] => Ok []
  | d :: r =>
      v <- getitem d "content" ;;
      vs <- contents r ;;
      Ok (v :: vs)
  end.

(** The items of [sep.join(items)]: the first item that is not a string
    raises, with its index, counted from [i]. *)
Fixpoint str_items (i : nat) (items : list pyval) : result (list str) :=
  match items with
  | [] => Ok []
  | VStr s :: r => ss <- str_items (S i) r ;; Ok (s :: ss)
  | v :: _ =>
      Err (PyExc "TypeError"
             (text "sequence item " ++ str_of_nat i
              ++ text ": expected str instance, " ++ type_name v ++ text " found"))
  end.

(** [sep.join(items)] *)
Definition py_join (sep : str) (items : list pyval) : result str :=
  ss <- str_items 0 items ;; Ok (join sep ss).

Definition apology_generate (e : exn) : str :=
  text "Üzgünüm, yanıt oluşturamadım. Hata: " ++ exn_str e.

Section WithCollaborators.
Context {C : Collaborators} {R : RetrievalRun}.

Definition get_context_only (self : TurkishRAGPipeline) (question : str) (top_k : Z)
    : list dict * TurkishRAGPipeline :=
  let self := set_top_k self top_k in
  match pipeline_run_retrieval (retriever_top_k self) question with
  | Ok r => (map document_fields (retrieved_documents r), self)
  | Err e =>
      ([], print self (text "Error retrieving documents: " ++ exn_str e))
  end.

(** The body of the [try] block of [generate_answer_with_context]. *)
Definition generate_body (self : TurkishRAGPipeline) (question : str)
    (context_docs : list dict) : result str :=
  items <- contents context_docs ;;
  context_text <- py_join NLNL items ;;
  let prompt := build_prompt context_text question in
  match model self with
  | Some m => response <- generate_content m prompt ;; response_text response
  | None => Ok (no_key_answer (List.length context_docs))
  end.

Definition generate_answer_with_context (self : TurkishRAGPipeline)
    (question : str) (context_docs : list dict) : str * TurkishRAGPipeline :=
  match generate_body self question context_docs with
  | Ok answer => (answer, self)
  | Err e =>
      (apology_generate e,
       print self (text "Error generating answer: " ++ exn_str e))
  end.

(** [RAGPipelineManager.ask_question]; the manager holds the pipeline. *)
Definition ask_question (self : TurkishRAGPipeline) (question : str)
    (show_context : bool) : result dict * TurkishRAGPipeline :=
  let '(r, self) := query self question 5 in
  if show_context then (Ok r, self)
  else
    (answer <- getitem r "answer" ;;
     q <- getitem r "query" ;;
     Ok [ ("answer"%string, answer); ("query"%string, q) ],
     self).

(** [RAGPipelineManager.get_similar_documents] *)
Definition get_similar_documents (self : TurkishRAGPipeline) (question : str)
    (top_k : Z) : list dict * TurkishRAGPipeline :=
  get_context_only self question top_k.

End WithCollaborators.

End RagEntryPoints.

Import RagEntryPoints.

(** * Further vocabulary *)

Module MoreSpec.

Open Scope Z_scope.

(** Not a whitespace character. *)
Definition nonspace {T : Tables} (c : char) : bool := negb (isspace c).

(** Position [i] lies in one of the windows. *)
Definition covered (ws : list (Z * Z)) (i : Z) : Prop :=
  exists w, In w ws /\ fst w <= i < snd w.

(** The windows of a text without sentence marks: [n] windows of length
    [chunk_size], [stride] apart, from [start] on. *)
Fixpoint fixed_windows (n : nat) (start stride chunk_size : Z) : list (Z * Z) :=
  match n with
  | O => []
  | S n' =>
      (start, start + chunk_size)
      :: fixed_windows n' (start + stride) stride chunk_size
  end.

(** The meta keys of a document, in the order of the dict literal. *)
Definition meta_keys : list string :=
  ["title"; "url"; "chunk_id"; "total_chunks"; "source"]%string.

(** The shape of the [meta] of a document that [create_documents] builds. *)
Definition well_numbered (d : Document) : Prop :=
  dict_keys (meta d) = meta_keys
  /\ dict_get (meta d) "source" = Some (VStr (text "wikipedia"))
  /\ exists i n,
       dict_get (meta d) "chunk_id" = Some (VInt i)
       /\ dict_get (meta d) "total_chunks" = Some (VInt n)
       /\ 0 <= i < n.

(** A record whose resolved value makes [re.sub] raise. *)
Definition bad_record (item : dict) : Prop :=
  truthy (resolve_text item) = true /\ forall s, resolve_text item <> VStr s.

(** The keys of a formatted document. *)
Definition document_keys : list string :=
  ["content"; "title"; "url"; "score"]%string.

(** Every context document holds a string under ['content']. *)
Definition has_text (d : dict) : Prop :=
  exists s, dict_get d "content" = Some (VStr s).

(** The answer step of [query] for the run result [r]: the generation
    when a model is configured, the fixed message otherwise. *)
Definition answer_step {C : Collaborators} (self : TurkishRAGPipeline)
    (r : run_result) (question : str) : result str :=
  match model self with
  | Some m => generation m (generation_prompt r question)
  | None => Ok (no_key_answer (List.length (retrieved_documents r)))
  end.

(** The response of [query] when nothing is raised. *)
Definition success_response (answer : str) (r : run_result) (question : str) : dict :=
  [ ("answer"%string, VStr answer);
    ("documents"%string, VList (map format_document (retrieved_documents r)));
    ("query"%string, VStr question) ].

(** A retrieval that raises. *)
Definition failing_retrieval : Collaborators :=
  {| Model := unit;
     Response := unit;
     pipeline_run := fun _ _ => Err (PyExc "RuntimeError" (text "index"));
     generate_content := fun _ _ => Ok tt;
     response_text := fun _ => Ok (text "Galatasaray 1905") |}.

(** A retrieval that finds one document and a model that answers. *)
Definition sample_run : run_result :=
  [("retriever"%string, [("documents"%string, [sample_document])])].

Definition working : Collaborators :=
  {| Model := unit;
     Response := unit;
     pipeline_run := fun _ _ => Ok sample_run;
     generate_content := fun _ _ => Ok tt;
     response_text := fun _ => Ok (text "Galatasaray 1905") |}.

Definition working_retrieval : RetrievalRun :=
  {| pipeline_run_retrieval := fun _ _ => Ok sample_run |}.

(** A pipeline object over given collaborators. *)
Definition pipeline_object (C : Collaborators) (m : option (@Model C)) (top_k : Z)
    : @TurkishRAGPipeline C :=
  @Build_TurkishRAGPipeline C m top_k [].

End MoreSpec.

Import MoreSpec.

(** * Properties *)

(** ** Stripping *)

Section StripFacts.
Context {T : Tables}.

Lemma lstrip_suffix (s : str) : exists w, s = w ++ lstrip s.
Proof.
  induction s as [|c r [w IH]]; simpl.
  - now exists [].
  - destruct (isspace c).
    + exists (c :: w). simpl. now f_equal.
    + now exists [].
Qed.

Lemma rstrip_prefix (s : str) : exists w, s = rstrip s ++ w.
Proof.
  unfold rstrip. destruct (lstrip_suffix (rev s)) as [w Hw].
  exists (rev w). rewrite <- rev_app_distr, <- Hw. now rewrite rev_involutive.
Qed.

Lemma lstrip_length (s : str) : (List.length (lstrip s) <= List.length s)%nat.
Proof.
  destruct (lstrip_suffix s) as [w Hw]. rewrite Hw at 2.
  rewrite length_app. lia.
Qed.

Lemma strip_length (s : str) : (List.length (strip s) <= List.length s)%nat.
Proof.
  unfold strip, rstrip. rewrite length_rev.
  etransitivity; [apply lstrip_length|]. rewrite length_rev. apply lstrip_length.
Qed.

Lemma strip_len (s : str) : (len (strip s) <= len s)%Z.
Proof. unfold len. pose proof (strip_length s). lia. Qed.

Lemma lstrip_starts_clean (s : str) : starts_clean (lstrip s).
Proof.
  induction s as [|c r IH]; simpl; [exact I|].
  destruct (isspace c) eqn:E; [exact IH | exact E].
Qed.

Lemma lstrip_id (s : str) : starts_clean s -> lstrip s = s.
Proof. destruct s as [|c r]; simpl; [easy|]. now intros ->. Qed.

Lemma rstrip_ends_clean (s : str) : ends_clean (rstrip s).
Proof.
  unfold ends_clean, rstrip. rewrite rev_involutive. apply lstrip_starts_clean.
Qed.

Lemma rstrip_id (s : str) : ends_clean s -> rstrip s = s.
Proof.
  unfold ends_clean, rstrip. intros H. rewrite lstrip_id by exact H.
  apply rev_involutive.
Qed.

Lemma starts_clean_prefix (p w : str) : starts_clean (p ++ w) -> starts_clean p.
Proof. destruct p; simpl; auto. Qed.

Lemma rstrip_starts_clean (s : str) : starts_clean s -> starts_clean (rstrip s).
Proof.
  intros H. destruct (rstrip_prefix s) as [w Hw]. rewrite Hw in H.
  eapply starts_clean_prefix; eauto.
Qed.

Lemma strip_starts_clean (s : str) : starts_clean (strip s).
Proof. apply rstrip_starts_clean, lstrip_starts_clean. Qed.

Lemma strip_ends_clean (s : str) : ends_clean (strip s).
Proof. apply rstrip_ends_clean. Qed.

Lemma strip_id (s : str) : starts_clean s -> ends_clean s -> strip s = s.
Proof. intros H1 H2. unfold strip. rewrite lstrip_id by exact H1. now apply rstrip_id. Qed.

Lemma strip_idempotent (s : str) : strip (strip s) = strip s.
Proof. apply strip_id; [apply strip_starts_clean | apply strip_ends_clean]. Qed.

Lemma lstrip_Forall (P : char -> Prop) (s : str) : Forall P s -> Forall P (lstrip s).
Proof.
  intros H. destruct (lstrip_suffix s) as [w Hw]. rewrite Hw in H.
  now apply Forall_app in H.
Qed.

Lemma strip_Forall (P : char -> Prop) (s : str) : Forall P s -> Forall P (strip s).
Proof.
  intros H. unfold strip, rstrip.
  now apply Forall_rev, lstrip_Forall, Forall_rev, lstrip_Forall.
Qed.

Lemma ends_clean_snoc (s : str) :
  ends_clean s -> s = [] \/ exists p c, s = p ++ [c] /\ isspace c = false.
Proof.
  unfold ends_clean. destruct (rev s) as [|c r] eqn:E; simpl; intros H.
  - left. apply (f_equal (@rev _)) in E. now rewrite rev_involutive in E.
  - right. exists (rev r), c. split; [|exact H].
    apply (f_equal (@rev _)) in E. now rewrite rev_involutive in E.
Qed.

Lemma snoc_ends_clean (p : str) (c : char) : isspace c = false -> ends_clean (p ++ [c]).
Proof. intros H. unfold ends_clean. now rewrite rev_app_distr. Qed.

End StripFacts.

(** ** The normaliser *)

Section NormalizerFacts.
Context {T : Tables}.

Lemma SP_allowed : allowed SP = true.
Proof. unfold allowed. rewrite isspace_SP. now rewrite orb_true_r. Qed.

Lemma filter_all_allowed (s : str) : all_allowed s -> filter allowed s = s.
Proof.
  induction 1 as [|c r Hc _ IH]; simpl; [easy|]. now rewrite Hc, IH.
Qed.

Lemma filter_is_allowed (s : str) : all_allowed (filter allowed s).
Proof.
  induction s as [|c r IH]; simpl; [constructor|].
  destruct (allowed c) eqn:E; [constructor|]; assumption.
Qed.

Lemma collapse_all_allowed (s : str) (b : bool) :
  all_allowed s -> all_allowed (collapse_ws b s).
Proof.
  intros H. revert b. induction H as [|c r Hc _ IH]; intros b; simpl; [constructor|].
  destruct (isspace c); [destruct b|].
  - apply IH.
  - constructor; [apply SP_allowed | apply IH].
  - constructor; [exact Hc | apply IH].
Qed.

Lemma collapse_starts_clean (s : str) (b : bool) :
  starts_clean s -> starts_clean (collapse_ws b s).
Proof. destruct s as [|c r]; simpl; [easy|]. intros H. rewrite H. exact H. Qed.

Lemma collapse_snoc (s : str) (c : char) (b : bool) :
  isspace c = false -> collapse_ws b (s ++ [c]) = collapse_ws b s ++ [c].
Proof.
  intros Hc. revert b. induction s as [|x r IH]; intros b; simpl.
  - now rewrite Hc.
  - destruct (isspace x); [destruct b|]; simpl; now rewrite IH.
Qed.

Lemma collapse_ends_clean (s : str) (b : bool) :
  ends_clean s -> ends_clean (collapse_ws b s).
Proof.
  intros H. destruct (ends_clean_snoc s H) as [-> | (p & c & -> & Hc)]; [exact I|].
  rewrite collapse_snoc by exact Hc. now apply snoc_ends_clean.
Qed.

Lemma collapse_clean (s : str) : clean s -> clean (collapse_ws false s).
Proof.
  intros (Ha & Hs & He). repeat split.
  - now apply collapse_all_allowed.
  - now apply collapse_starts_clean.
  - now apply collapse_ends_clean.
Qed.

(** Collapsing twice is collapsing once. *)
Lemma collapse_collapse (s : str) :
  (forall b, collapse_ws false (collapse_ws b s) = collapse_ws b s)
  /\ collapse_ws true (collapse_ws true s) = collapse_ws true s.
Proof.
  induction s as [|c r [IH1 IH2]]; simpl; [now split|].
  destruct (isspace c) eqn:Ec.
  - split; [intros [|]|]; simpl; auto.
    rewrite isspace_SP. now rewrite IH2.
  - split; [intros b|]; simpl; rewrite Ec; now rewrite IH1.
Qed.



Lemma single_spaced_weaken (s : str) (b : bool) :
  single_spaced b s = true -> single_spaced false s = true.
Proof.
  destruct s as [|c r]; simpl; [easy|]. destruct (isspace c); [|easy].
  destruct b; simpl; [|easy]. now rewrite andb_false_r.
Qed.




Lemma preprocess_text_clean (t : str) : clean (preprocess_text t).
Proof.
  unfold preprocess_text. repeat split.
  - apply strip_Forall, filter_is_allowed.
  - apply strip_starts_clean.
  - apply strip_ends_clean.
Qed.

(** On a clean string the normaliser only collapses runs of spaces. *)
Lemma preprocess_text_on_clean (u : str) :
  clean u -> preprocess_text u = collapse_ws false u.
Proof.
  intros Hu. destruct (collapse_clean u Hu) as (Ha & Hs & He).
  unfold preprocess_text. rewrite filter_all_allowed by exact Ha.
  now apply strip_id.
Qed.

Lemma preprocess_text_twice (t : str) :
  preprocess_text (preprocess_text t) = collapse_ws false (preprocess_text t).
Proof. apply preprocess_text_on_clean, preprocess_text_clean. Qed.

End NormalizerFacts.

Section NormalizerIdempotence.
Context {T : Tables}.

(** Two passes reach a fixed point: a third pass changes nothing. *)
Lemma preprocess_text_stabilises (t : str) :
  preprocess_text (preprocess_text (preprocess_text t))
  = preprocess_text (preprocess_text t).
Proof.
  rewrite (preprocess_text_twice t).
  rewrite preprocess_text_on_clean
    by (apply collapse_clean, preprocess_text_clean).
  apply collapse_collapse.
Qed.


End NormalizerIdempotence.



(** ** The 70% threshold in binary64 *)

Module FloatFacts.

Import Float64.
Open Scope Z_scope.

Lemma round53_bounds (m : Z) :
  0 < m ->
  4503599627370495 * m <= 4503599627370496 * round53 m
  /\ 4503599627370496 * round53 m <= 4503599627370497 * m.
Proof.
  intros Hm. unfold round53.
  destruct (Z.leb_spec (Z.log2 m - 52) 0) as [Hs|Hs]; [lia|].
  set (s := Z.log2 m - 52) in *.
  assert (Hp : 0 < 2 ^ s) by (apply Z.pow_pos_nonneg; lia).
  assert (Hlog : 2 ^ s * 4503599627370496 <= m).
  { change 4503599627370496 with (2 ^ 52). rewrite <- Z.pow_add_r by lia.
    replace (s + 52) with (Z.log2 m) by (unfold s; lia).
    now apply Z.log2_spec. }
  pose proof (Z.div_mod m (2 ^ s) ltac:(lia)) as Hdm.
  pose proof (Z.mod_pos_bound m (2 ^ s) Hp) as Hr.
  set (p := 2 ^ s) in *. set (q := m / p) in *. set (r := m mod p) in *.
  destruct ((2 ^ (s - 1) <? r) || ((r =? 2 ^ (s - 1)) && Z.odd q)); nia.
Qed.

Lemma of_int_exact (n : Z) : 0 < n < 2 ^ 53 -> of_int n = n.
Proof.
  intros [H0 H1]. unfold of_int, round53.
  rewrite Z.sgn_pos, Z.abs_eq by lia.
  apply Z.log2_lt_pow2 in H1; [|exact H0].
  destruct (Z.leb_spec (Z.log2 n - 52) 0); lia.
Qed.

Lemma mul_0_7_bounds (n : Z) :
  0 < n < 2 ^ 53 ->
  4503599627370495 * (n * d07) <= 4503599627370496 * mul_0_7 n
  /\ 4503599627370496 * mul_0_7 n <= 4503599627370497 * (n * d07).
Proof.
  intros Hn. unfold mul_0_7. rewrite (of_int_exact n Hn).
  rewrite Z.sgn_pos, Z.abs_eq, Z.mul_1_l by lia.
  apply round53_bounds. unfold d07. lia.
Qed.

(** A position that passes the test is at 70% of the window or beyond. *)
Lemma int_gt_mul_0_7_sound (i n : Z) :
  0 < n <= 2 ^ 48 -> int_gt_mul_0_7 i n = true -> 7 * n <= 10 * i.
Proof.
  intros Hn H. unfold int_gt_mul_0_7 in H. apply Z.ltb_lt in H.
  change (2 ^ 48) with 281474976710656 in Hn.
  change (2 ^ 53) with 9007199254740992 in H.
  destruct (mul_0_7_bounds n) as [Hlo _].
  { change (2 ^ 53) with 9007199254740992. lia. }
  unfold d07 in Hlo. lia.
Qed.

(** A position strictly beyond 70% of the window passes the test. *)
Lemma int_gt_mul_0_7_complete (i n : Z) :
  0 < n <= 2 ^ 48 -> 7 * n < 10 * i -> int_gt_mul_0_7 i n = true.
Proof.
  intros Hn H. unfold int_gt_mul_0_7. apply Z.ltb_lt.
  change (2 ^ 48) with 281474976710656 in Hn.
  change (2 ^ 53) with 9007199254740992.
  destruct (mul_0_7_bounds n) as [_ Hhi].
  { change (2 ^ 53) with 9007199254740992. lia. }
  unfold d07 in Hhi. lia.
Qed.

(** With the default window the product is exactly [350.0]. *)
Lemma int_gt_mul_0_7_default (i : Z) :
  int_gt_mul_0_7 i default_chunk_size = (350 <? i).
Proof.
  unfold int_gt_mul_0_7.
  replace (mul_0_7 default_chunk_size) with (350 * 2 ^ 53) by (vm_compute; reflexivity).
  change (2 ^ 53) with 9007199254740992.
  destruct (Z.ltb_spec 350 i), (Z.ltb_spec (350 * 9007199254740992) (i * 9007199254740992));
    try reflexivity; lia.
Qed.

(** The product is not negative, so "no sentence end" (-1) never passes. *)
Lemma int_gt_mul_0_7_nonneg (i n : Z) :
  0 < n < 2 ^ 53 -> int_gt_mul_0_7 i n = true -> 0 < i.
Proof.
  intros Hn H. unfold int_gt_mul_0_7 in H. apply Z.ltb_lt in H.
  change (2 ^ 53) with 9007199254740992 in H.
  destruct (mul_0_7_bounds n Hn) as [Hlo _]. unfold d07 in Hlo. lia.
Qed.

End FloatFacts.

(** ** Slices and [rfind] *)

Section SliceFacts.

Open Scope Z_scope.

Lemma len_nonneg (s : str) : 0 <= len s.
Proof. unfold len. lia. Qed.

Lemma len_cons (x : char) (s : str) : len (x :: s) = len s + 1.
Proof. unfold len. simpl List.length. lia. Qed.

Lemma len_app (s1 s2 : str) : len (s1 ++ s2) = len s1 + len s2.
Proof. unfold len. rewrite length_app. lia. Qed.

Lemma nth_cons_Z (x : char) (r : str) (j : Z) (d : char) :
  0 < j -> nth (Z.to_nat j) (x :: r) d = nth (Z.to_nat (j - 1)) r d.
Proof.
  intros Hj. replace (Z.to_nat j) with (S (Z.to_nat (j - 1))) by lia. reflexivity.
Qed.

(** With bounds that are not negative a slice is [firstn] of [skipn]. *)
Lemma py_slice_nonneg (s : str) (a b : Z) :
  0 <= a -> 0 <= b ->
  py_slice s a b = firstn (Z.to_nat (b - a)) (skipn (Z.to_nat a) s).
Proof.
  intros Ha Hb. unfold py_slice.
  destruct (Z.ltb_spec a 0) as [?|_]; [lia|].
  destruct (Z.ltb_spec b 0) as [?|_]; [lia|].
  pose proof (len_nonneg s) as Hn. unfold len in *.
  destruct (Z.le_gt_cases a (Z.of_nat (List.length s))) as [Han|Han].
  - rewrite (Z.min_l a) by lia.
    destruct (Z.le_gt_cases b (Z.of_nat (List.length s))) as [Hbn|Hbn].
    + now rewrite (Z.min_l b) by lia.
    + rewrite (Z.min_r b) by lia.
      rewrite !firstn_all2; [reflexivity| |]; rewrite length_skipn; lia.
  - rewrite (Z.min_r a) by lia.
    rewrite !skipn_all2 by lia. now rewrite !firstn_nil.
Qed.

Lemma py_slice_len (s : str) (a b : Z) :
  0 <= a -> a <= b -> len (py_slice s a b) <= b - a.
Proof.
  intros Ha Hb. rewrite py_slice_nonneg by lia. unfold len.
  pose proof (firstn_le_length (Z.to_nat (b - a)) (skipn (Z.to_nat a) s)). lia.
Qed.

(** A non-empty window that starts inside the text is not empty. *)
Lemma py_slice_nonempty (s : str) (a b : Z) :
  0 <= a -> a < b -> a < len s -> 0 < len (py_slice s a b).
Proof.
  intros Ha Hb Hn. rewrite py_slice_nonneg by lia. unfold len in *.
  rewrite length_firstn, length_skipn. lia.
Qed.

Lemma py_slice_prefix (s : str) (a b k : Z) :
  0 <= a -> 0 <= k <= b - a ->
  py_slice (py_slice s a b) 0 k = py_slice s a (a + k).
Proof.
  intros Ha Hk. rewrite (py_slice_nonneg s a b) by lia.
  rewrite py_slice_nonneg by lia. rewrite (py_slice_nonneg s a (a + k)) by lia.
  simpl skipn. rewrite firstn_firstn. f_equal. lia.
Qed.

Lemma rfind_spec (s : str) (c : char) :
  -1 <= rfind s c < len s
  /\ (0 <= rfind s c -> nth (Z.to_nat (rfind s c)) s 0%N = c)
  /\ (forall j, rfind s c < j < len s -> nth (Z.to_nat j) s 0%N <> c).
Proof.
  induction s as [|x r (IHb & IHn & IHj)].
  - simpl. unfold len. simpl. repeat split; lia.
  - simpl rfind. rewrite len_cons.
    destruct (Z.leb_spec 0 (rfind r c)) as [Hk|Hk].
    + repeat split; try lia.
      * intros _. rewrite nth_cons_Z by lia.
        replace (rfind r c + 1 - 1) with (rfind r c) by lia. now apply IHn.
      * intros j Hj. rewrite nth_cons_Z by lia. apply IHj. lia.
    + destruct (N.eqb_spec x c) as [Hx|Hx].
      * repeat split; try lia.
        -- intros _. exact Hx.
        -- intros j Hj. rewrite nth_cons_Z by lia. apply IHj. lia.
      * repeat split; try lia.
        intros j Hj. destruct (Z.eq_dec j 0) as [->|Hj0]; [exact Hx|].
        rewrite nth_cons_Z by lia. apply IHj. lia.
Qed.

Lemma is_sentence_end_iff (c : char) :
  is_sentence_end c = true <-> c = DOT \/ c = QUESTION \/ c = EXCLAMATION.
Proof.
  unfold is_sentence_end. rewrite !orb_true_iff, !N.eqb_eq. tauto.
Qed.

Lemma is_sentence_end_false (c : char) :
  c <> DOT -> c <> QUESTION -> c <> EXCLAMATION -> is_sentence_end c = false.
Proof.
  intros H1 H2 H3. destruct (is_sentence_end c) eqn:E; [|reflexivity].
  apply is_sentence_end_iff in E. tauto.
Qed.

(** The maximum of the three [rfind]s is the rightmost sentence end. *)
Lemma max_rfind_last (w : str) :
  last_sentence_end_at w
    (Z.max (Z.max (rfind w DOT) (rfind w QUESTION)) (rfind w EXCLAMATION)).
Proof.
  destruct (rfind_spec w DOT) as (Db & Dn & Dj).
  destruct (rfind_spec w QUESTION) as (Qb & Qn & Qj).
  destruct (rfind_spec w EXCLAMATION) as (Eb & En & Ej).
  set (m := Z.max (Z.max (rfind w DOT) (rfind w QUESTION)) (rfind w EXCLAMATION)).
  unfold last_sentence_end_at. repeat split; try lia.
  - intros Hm. apply is_sentence_end_iff.
    destruct (Z.eq_dec m (rfind w DOT)) as [E|ND];
      [left; rewrite E; apply Dn; lia|].
    destruct (Z.eq_dec m (rfind w QUESTION)) as [E|NQ];
      [right; left; rewrite E; apply Qn; lia|].
    right; right. replace m with (rfind w EXCLAMATION) by lia. apply En. lia.
  - intros j Hj. apply is_sentence_end_false; [apply Dj|apply Qj|apply Ej]; lia.
Qed.

Lemma last_sentence_end_unique (w : str) (k m : Z) :
  last_sentence_end_at w k -> last_sentence_end_at w m -> k = m.
Proof.
  intros (Kb & Kn & Kj) (Mb & Mn & Mj).
  destruct (Z.lt_trichotomy k m) as [H|[H|H]]; [|exact H|].
  - specialize (Kj m ltac:(lia)). rewrite Mn in Kj by lia. discriminate.
  - specialize (Mj k ltac:(lia)). rewrite Kn in Mj by lia. discriminate.
Qed.

End SliceFacts.

(** ** The chunker *)

Section ChunkerFacts.
Context {T : Tables}.

Import Float64 FloatFacts.
Open Scope Z_scope.

Lemma chunk_loop_done (fuel : nat) (t : str) (cs ov start : Z) (chunks : list str) :
  len t <= start -> chunk_loop fuel t cs ov start chunks = Returns chunks.
Proof.
  intros H. destruct fuel; cbn [chunk_loop];
    destruct (Z.ltb_spec start (len t)); try lia; reflexivity.
Qed.

Lemma chunk_loop_step (fuel : nat) (t : str) (cs ov start : Z) (chunks : list str) :
  start < len t ->
  chunk_loop (S fuel) t cs ov start chunks
  = (let '(c, e) := carve t cs start in
     if len t <=? e - ov then Returns (chunks ++ [strip c])
     else chunk_loop fuel t cs ov (e - ov) (chunks ++ [strip c])).
Proof.
  intros H. cbn [chunk_loop]. apply Z.ltb_lt in H. rewrite H. reflexivity.
Qed.

Lemma chunk_loop_out_of_fuel (t : str) (cs ov start : Z) (chunks : list str) :
  start < len t -> chunk_loop 0 t cs ov start chunks = OutOfFuel.
Proof. intros H. cbn [chunk_loop]. apply Z.ltb_lt in H. now rewrite H. Qed.

(** Whatever the sign of the bounds, a slice [s[a:b]] with [a <= b] is no
    longer than [b - a]. *)
Lemma py_slice_len_any (s : str) (a b : Z) :
  a <= b -> len (py_slice s a b) <= b - a.
Proof.
  intros Hab. unfold py_slice, len. rewrite length_firstn.
  pose proof (len_nonneg s) as Hn. unfold len in Hn.
  destruct (Z.ltb_spec a 0), (Z.ltb_spec b 0); lia.
Qed.

(** What one pass of the loop cuts, for a cursor inside the text. *)
Lemma carve_window (t : str) (cs start : Z) :
  0 < cs < 2 ^ 53 -> 0 <= start ->
  exists e,
    carve t cs start = (py_slice t start e, e)
    /\ start < e <= start + cs
    /\ (e = start + cs \/ int_gt_mul_0_7 (e - start - 1) cs = true).
Proof.
  intros Hcs Hs. unfold carve.
  destruct (start + cs <? len t); [|exists (start + cs); repeat split; lia || auto].
  set (w := py_slice t start (start + cs)).
  destruct (max_rfind_last w) as (Kb & _ & _).
  set (k := Z.max (Z.max (rfind w DOT) (rfind w QUESTION)) (rfind w EXCLAMATION)) in *.
  destruct (int_gt_mul_0_7 k cs) eqn:Ek;
    [|exists (start + cs); repeat split; lia || auto].
  pose proof (int_gt_mul_0_7_nonneg k cs Hcs Ek) as Hk.
  pose proof (py_slice_len t start (start + cs) Hs ltac:(lia)) as Hw. fold w in Hw.
  exists (start + k + 1). repeat split; try lia.
  - unfold w. rewrite py_slice_prefix by lia. do 2 f_equal. lia.
  - right. now replace (start + k + 1 - start - 1) with k by lia.
Qed.

(** With [0 < overlap < window] and [overlap] at most 70% of the window,
    every pass moves the cursor forward, so the loop ends after at most
    [len t - start] passes. *)
Lemma chunk_loop_terminates (t : str) (cs ov : Z) :
  0 < ov < cs -> 10 * ov <= 7 * cs -> cs <= 2 ^ 48 ->
  forall (fuel : nat) (start : Z) (chunks : list str),
    0 <= start -> len t - start <= Z.of_nat fuel ->
    exists ws,
      chunk_loop fuel t cs ov start chunks
      = Returns (chunks ++ map (window_chunk t) ws)
      /\ windows_from t ov start ws.
Proof.
  intros Hov H70 Hcs.
  assert (Hcs53 : 0 < cs < 2 ^ 53).
  { change (2 ^ 48) with 281474976710656 in Hcs.
    change (2 ^ 53) with 9007199254740992. lia. }
  induction fuel as [|f IH]; intros start chunks Hs Hf.
  - exists []. simpl map. rewrite app_nil_r. split; [|simpl; lia].
    apply chunk_loop_done. lia.
  - destruct (Z.le_gt_cases (len t) start) as [Hd|Hd].
    { exists []. simpl map. rewrite app_nil_r. split; [|simpl; lia].
      now apply chunk_loop_done. }
    rewrite chunk_loop_step by lia.
    destruct (carve_window t cs start Hcs53 Hs) as (e & -> & He & Hsnap).
    assert (Hprog : start < e - ov).
    { destruct Hsnap as [->|Hsnap]; [lia|].
      apply int_gt_mul_0_7_sound in Hsnap; lia. }
    destruct (Z.leb_spec (len t) (e - ov)) as [Hl|Hl].
    + exists [(start, e)]. split; [reflexivity|]. simpl. lia.
    + destruct (IH (e - ov) (chunks ++ [strip (py_slice t start e)])
                  ltac:(lia) ltac:(lia)) as (ws & Hrun & Hws).
      exists ((start, e) :: ws). split.
      * rewrite Hrun, <- app_assoc. reflexivity.
      * simpl. repeat split; try lia. exact Hws.
Qed.

(** With [overlap >= window > 0] the cursor never moves forward: on a text
    longer than the window the loop does not end. *)
Lemma chunk_loop_never_progresses (t : str) (cs ov : Z) :
  0 < cs <= ov -> cs < len t ->
  forall (fuel : nat) (start : Z) (chunks : list str),
    start <= 0 -> chunk_loop fuel t cs ov start chunks = OutOfFuel.
Proof.
  intros Hcs Hlen. induction fuel as [|f IH]; intros start chunks Hs.
  - apply chunk_loop_out_of_fuel. lia.
  - rewrite chunk_loop_step by lia.
    assert (He : snd (carve t cs start) <= start + cs).
    { unfold carve. destruct (start + cs <? len t); [|simpl; lia].
      set (w := py_slice t start (start + cs)).
      destruct (max_rfind_last w) as (Kb & _ & _).
      pose proof (py_slice_len_any t start (start + cs) ltac:(lia)) as Hw. fold w in Hw.
      destruct (int_gt_mul_0_7 _ cs); simpl; lia. }
    destruct (carve t cs start) as [c e]. simpl in He.
    destruct (Z.leb_spec (len t) (e - ov)); [lia|].
    apply IH. lia.
Qed.

Lemma chunk_text_never_progresses (fuel : nat) (t : str) (cs ov : Z) :
  0 < cs <= ov -> cs < len t -> chunk_text fuel t cs ov = OutOfFuel.
Proof.
  intros Hcs Hlen. unfold chunk_text.
  destruct (Z.leb_spec (len t) cs); [lia|].
  now apply chunk_loop_never_progresses.
Qed.

End ChunkerFacts.

Section ChunkerClaims.
Context {T : Tables}.

Import Float64 FloatFacts.
Open Scope Z_scope.

(** C3 (amended): [chunk_text] has no configuration check.  Called with
    [overlap >= window > 0] (the window at most [2^48], far inside the
    range where the product [window * 0.7] exists) it raises no
    configuration error, neither before the first pass nor in any later
    one: a text no longer than the window is returned as the one-element
    list holding it, and on a longer text the loop is still running after
    any number of passes, none of which raises. *)
Theorem chunk_text_no_configuration_error
    (fuel : nat) (t : str) (cs ov : Z) :
  0 < cs <= ov -> cs <= 2 ^ 48 ->
  chunk_text fuel t cs ov
  = (if len t <=? cs then Returns [t] else OutOfFuel)
  /\ (forall e, chunk_text fuel t cs ov <> Raises e).
Proof.
  intros Hcs _.
  assert (H : chunk_text fuel t cs ov
              = (if len t <=? cs then Returns [t] else OutOfFuel)).
  { unfold chunk_text. destruct (Z.leb_spec (len t) cs) as [Hl|Hl]; [reflexivity|].
    apply (chunk_loop_never_progresses t cs ov Hcs Hl fuel 0 []). lia. }
  split; [exact H|].
  intros e. rewrite H. destruct (len t <=? cs); discriminate.
Qed.

(** C4 (amended): for [0 < overlap < window] with [overlap] at most 70% of
    the window (and a window below [2^48]), [chunk_text] terminates: fuel
    [len t] is enough.  It returns [[t]] when [len t <= window]; otherwise
    the chunks are, in order, the trimmed contents of non-empty windows of
    [t] whose starts strictly increase, each starting [overlap] before the
    end of the previous one.  (A chunk may be the empty string.) *)
Theorem chunk_text_terminates (fuel : nat) (t : str) (cs ov : Z) :
  0 < ov < cs -> 10 * ov <= 7 * cs -> cs <= 2 ^ 48 ->
  len t <= Z.of_nat fuel ->
  exists chunks,
    chunk_text fuel t cs ov = Returns chunks
    /\ ((len t <= cs /\ chunks = [t])
        \/ (cs < len t
            /\ exists ws, chunks = map (window_chunk t) ws
                          /\ windows_from t ov 0 ws)).
Proof.
  intros Hov H70 Hcs Hf. unfold chunk_text.
  destruct (Z.leb_spec (len t) cs) as [Hl|Hl].
  - exists [t]. split; [reflexivity|]. left. now split.
  - destruct (chunk_loop_terminates t cs ov Hov H70 Hcs fuel 0 [])
      as (ws & Hrun & Hws); [lia | lia |].
    exists (map (window_chunk t) ws). split; [exact Hrun|].
    right. split; [exact Hl|]. now exists ws.
Qed.

(** C7 (amended): for [len t <= window], [chunk_text] returns exactly
    [[t]], the text as it is, not trimmed.  When [t] comes out of
    [preprocess_text], which is how [create_documents] calls it, [t] has no
    surrounding whitespace and [[t]] is [[strip t]]. *)
Theorem chunk_text_short (fuel : nat) (t : str) (cs ov : Z) :
  len t <= cs ->
  chunk_text fuel t cs ov = Returns [t]
  /\ (forall raw, t = preprocess_text raw -> [t] = [strip t]).
Proof.
  intros Hlen. split.
  - unfold chunk_text. destruct (Z.leb_spec (len t) cs); [reflexivity | lia].
  - intros raw ->. unfold preprocess_text. now rewrite strip_idempotent.
Qed.

(** C8 (amended): in a window that does not reach the end of the text, let
    [k] be the index of the rightmost ['.'], ['?'] or ['!'] (-1 if none).
    The chunk is cut just after that mark, and [end] set to
    [start + k + 1], exactly when [k > window * 0.7] in binary64: strictly
    past 70%, so that a mark exactly at 70% of the default window
    (index 350 of 500) keeps the full window.  Otherwise the full window is
    kept.  The cursor then moves to [end - overlap]. *)
Theorem carve_snaps_strictly_past_70_percent (t : str) (cs start k : Z) :
  start + cs < len t ->
  last_sentence_end_at (py_slice t start (start + cs)) k ->
  carve t cs start
  = (if int_gt_mul_0_7 k cs
     then (py_slice (py_slice t start (start + cs)) 0 (k + 1), start + k + 1)
     else (py_slice t start (start + cs), start + cs))
  /\ (0 < cs <= 2 ^ 48 ->
      (7 * cs < 10 * k -> int_gt_mul_0_7 k cs = true)
      /\ (int_gt_mul_0_7 k cs = true -> 7 * cs <= 10 * k))
  /\ (cs = default_chunk_size -> int_gt_mul_0_7 k cs = (350 <? k))
  /\ (forall fuel ov chunks,
        start < len t ->
        chunk_loop (S fuel) t cs ov start chunks
        = (let '(c, e) := carve t cs start in
           if len t <=? e - ov then Returns (chunks ++ [strip c])
           else chunk_loop fuel t cs ov (e - ov) (chunks ++ [strip c]))).
Proof.
  intros Hend Hk. repeat split.
  - unfold carve. apply Z.ltb_lt in Hend. rewrite Hend.
    now rewrite (last_sentence_end_unique _ _ _ (max_rfind_last _) Hk).
  - now apply int_gt_mul_0_7_complete.
  - now apply int_gt_mul_0_7_sound.
  - intros ->. apply int_gt_mul_0_7_default.
  - intros fuel ov chunks Hs. now apply chunk_loop_step.
Qed.

End ChunkerClaims.

(** C3 (as stated) fails: with [overlap = window = 3] the three-character
    text is returned as a chunk and nothing is raised. *)
Lemma chunk_text_accepts_overlap_ge_window :
  (3 <= 3)%Z
  /\ @chunk_text ascii_tables 0 (text "abc") 3 3 = Returns [text "abc"]
  /\ ~ (exists e, @chunk_text ascii_tables 0 (text "abc") 3 3 = Raises e).
Proof.
  split; [lia|]. split; [reflexivity|]. intros [e He]. discriminate He.
Qed.

Lemma chunk_text_no_configuration_error_witness :
  @chunk_text ascii_tables 0 (text "abc") 3 3 = Returns [text "abc"]
  /\ @chunk_text ascii_tables 7 (text "abcd") 3 3 = OutOfFuel.
Proof.
  split.
  - refine (proj1 (@chunk_text_no_configuration_error ascii_tables 0
                     (text "abc") 3 3 _ _)).
    + lia.
    + vm_compute. discriminate.
  - refine (proj1 (@chunk_text_no_configuration_error ascii_tables 7
                     (text "abcd") 3 3 _ _)).
    + lia.
    + vm_compute. discriminate.
Defined.

(** C4 (as stated) fails.  With window 10 and overlap 9 the mark at index 8
    cuts the first chunk to nine characters, the cursor goes back to 0 and
    the loop never ends; and the chunk of the empty text is empty. *)
Lemma chunk_text_stalls :
  (0 < 9 < 10)%Z
  /\ ~ (exists fuel chunks,
          @chunk_text ascii_tables fuel (text "aaaaaaaa.aaaaaaaaaa") 10 9
          = Returns chunks)
  /\ @chunk_text ascii_tables 0 [] 500 50 = Returns [[]].
Proof.
  split; [lia|]. split; [|reflexivity].
  assert (Hl : len (text "aaaaaaaa.aaaaaaaaaa") = 19%Z) by reflexivity.
  assert (Hc : carve (text "aaaaaaaa.aaaaaaaaaa") 10 0 = (text "aaaaaaaa.", 9%Z))
    by (vm_compute; reflexivity).
  assert (Hloop : forall fuel chunks,
             @chunk_loop ascii_tables fuel (text "aaaaaaaa.aaaaaaaaaa") 10 9 0 chunks
             = OutOfFuel).
  { induction fuel as [|f IH]; intros chunks.
    - apply chunk_loop_out_of_fuel. rewrite Hl. lia.
    - rewrite chunk_loop_step by (rewrite Hl; lia). rewrite Hc, Hl.
      change (19 <=? 9 - 9)%Z with false. cbv iota. apply IH. }
  intros (fuel & chunks & H). unfold chunk_text in H. rewrite Hl in H.
  change (19 <=? 10)%Z with false in H. cbv iota in H.
  rewrite Hloop in H. discriminate H.
Qed.

Lemma chunk_text_terminates_witness :
  exists chunks,
    @chunk_text ascii_tables 19 (text "aaaaaaaa.aaaaaaaaaa") 10 3 = Returns chunks
    /\ ((len (text "aaaaaaaa.aaaaaaaaaa") <= 10 /\ chunks = [text "aaaaaaaa.aaaaaaaaaa"])%Z
        \/ (10 < len (text "aaaaaaaa.aaaaaaaaaa")
            /\ exists ws, chunks = map (@window_chunk ascii_tables (text "aaaaaaaa.aaaaaaaaaa")) ws
                          /\ windows_from (text "aaaaaaaa.aaaaaaaaaa") 3 0 ws)%Z).
Proof.
  apply (@chunk_text_terminates ascii_tables 19 (text "aaaaaaaa.aaaaaaaaaa") 10 3).
  - lia.
  - lia.
  - vm_compute. discriminate.
  - vm_compute. discriminate.
Defined.

(** C7 (as stated) fails: a short text with surrounding whitespace is
    returned untrimmed. *)
Lemma chunk_text_short_not_trimmed :
  (len (text " a ") <= 500)%Z
  /\ @chunk_text ascii_tables 0 (text " a ") 500 50 = Returns [text " a "]
  /\ @chunk_text ascii_tables 0 (text " a ") 500 50
     <> Returns [@strip ascii_tables (text " a ")].
Proof.
  split; [vm_compute; discriminate|]. split; [reflexivity|].
  vm_compute. discriminate.
Qed.

Lemma chunk_text_short_witness :
  @chunk_text ascii_tables 0 (text " a ") 500 50 = Returns [text " a "]
  /\ (forall raw, text " a " = @preprocess_text ascii_tables raw ->
                  [text " a "] = [@strip ascii_tables (text " a ")]).
Proof.
  apply (@chunk_text_short ascii_tables 0 (text " a ") 500 50).
  vm_compute. discriminate.
Defined.

(** C8 (as stated) fails: in a 600-character text whose only mark is at
    index 350, exactly 70% of the default window, the first chunk is the
    full window of 500 characters, not the 351 characters up to the mark. *)
Lemma carve_keeps_window_at_70_percent :
  last_sentence_end_at
    (py_slice (repeat 97%N 350 ++ DOT :: repeat 97%N 249) 0 500) 350
  /\ (7 * 500 <= 10 * 350)%Z
  /\ carve (repeat 97%N 350 ++ DOT :: repeat 97%N 249) 500 0
     = (py_slice (repeat 97%N 350 ++ DOT :: repeat 97%N 249) 0 500, 500%Z)
  /\ carve (repeat 97%N 350 ++ DOT :: repeat 97%N 249) 500 0
     <> (py_slice (repeat 97%N 350 ++ DOT :: repeat 97%N 249) 0 351, 351%Z).
Proof.
  assert (Hmax : Z.max (Z.max
            (rfind (py_slice (repeat 97%N 350 ++ DOT :: repeat 97%N 249) 0 500) DOT)
            (rfind (py_slice (repeat 97%N 350 ++ DOT :: repeat 97%N 249) 0 500) QUESTION))
            (rfind (py_slice (repeat 97%N 350 ++ DOT :: repeat 97%N 249) 0 500) EXCLAMATION)
          = 350%Z) by (vm_compute; reflexivity).
  split; [rewrite <- Hmax; apply max_rfind_last|].
  split; [lia|]. split; [vm_compute; reflexivity|].
  vm_compute. discriminate.
Qed.

Lemma carve_snaps_strictly_past_70_percent_witness :
  carve (text "aaaaaaaa.aaaaaaaaaa") 10 0
  = (if Float64.int_gt_mul_0_7 8 10
     then (py_slice (py_slice (text "aaaaaaaa.aaaaaaaaaa") 0 (0 + 10)) 0 (8 + 1), 0 + 8 + 1)
     else (py_slice (text "aaaaaaaa.aaaaaaaaaa") 0 (0 + 10), 0 + 10))%Z.
Proof.
  refine (proj1 (@carve_snaps_strictly_past_70_percent ascii_tables
                   (text "aaaaaaaa.aaaaaaaaaa") 10 0 8 _ _)).
  - vm_compute. reflexivity.
  - change 8%Z with (Z.max (Z.max
        (rfind (py_slice (text "aaaaaaaa.aaaaaaaaaa") 0 (0 + 10)) DOT)
        (rfind (py_slice (text "aaaaaaaa.aaaaaaaaaa") 0 (0 + 10)) QUESTION))
        (rfind (py_slice (text "aaaaaaaa.aaaaaaaaaa") 0 (0 + 10)) EXCLAMATION)).
    apply max_rfind_last.
Defined.

(** ** The document assembler *)

Section AssemblerFacts.
Context {T : Tables}.

Open Scope Z_scope.

Lemma emit_chunks_spec (item : dict) (total : Z) (chunks : list str) :
  forall (i : Z) (docs : list Document),
    emit_chunks item total i chunks docs
    = docs ++ map (fun jc => make_document item (fst jc) total (snd jc))
                (filter (fun jc => survives (snd jc)) (enumerate i chunks)).
Proof.
  induction chunks as [|c r IH]; intros i docs; simpl.
  - now rewrite app_nil_r.
  - unfold survives at 1. destruct (len (strip c) <? 50); simpl.
    + apply IH.
    + rewrite IH, <- app_assoc. reflexivity.
Qed.

Lemma In_enumerate {A} (l : list A) :
  forall (i j : Z) (x : A),
    In (j, x) (enumerate i l)
    <-> exists n, j = i + Z.of_nat n /\ nth_error l n = Some x.
Proof.
  induction l as [|y r IH]; intros i j x; simpl.
  - split; [easy|]. intros ([|n] & _ & H); discriminate H.
  - rewrite IH. split.
    + intros [E | (n & -> & Hn)].
      * inversion E; subst. exists 0%nat. split; [lia | reflexivity].
      * exists (S n). split; [lia | exact Hn].
    + intros ([|n] & -> & Hn); simpl in Hn.
      * left. inversion Hn. f_equal. lia.
      * right. exists n. split; [lia | exact Hn].
Qed.

(** The documents of a record: one per surviving chunk, numbered by the
    position of the chunk among all chunks. *)
Lemma In_record_documents (item : dict) (chunks : list str) (d : Document) :
  In d (record_documents item chunks)
  <-> exists n c,
        nth_error chunks n = Some c /\ survives c = true
        /\ d = make_document item (Z.of_nat n) (Z.of_nat (List.length chunks)) c.
Proof.
  unfold record_documents. rewrite in_map_iff. split.
  - intros ([j c] & <- & H). apply filter_In in H as [H Hs].
    apply In_enumerate in H as (n & -> & Hn). simpl in *.
    exists n, c. repeat split; auto.
  - intros (n & c & Hn & Hs & ->). exists (Z.of_nat n, c). split; [reflexivity|].
    apply filter_In. split; [|exact Hs].
    apply In_enumerate. exists n. split; [lia | exact Hn].
Qed.

(** With the default window and overlap the loop never runs out of the
    fuel [create_documents] gives it. *)
Lemma default_chunking_returns (s : str) :
  exists chunks,
    chunk_text (List.length s) s default_chunk_size default_overlap
    = Returns chunks.
Proof.
  unfold chunk_text. destruct (len s <=? default_chunk_size); [now exists [s]|].
  destruct (chunk_loop_terminates s default_chunk_size default_overlap)
    with (fuel := List.length s) (start := 0) (chunks := @nil str)
    as (ws & H & _); unfold default_chunk_size, default_overlap, len; try lia.
  simpl in H. now exists (map (window_chunk s) ws).
Qed.

Lemma create_documents_loop_skip (item : dict) (rest : list dict)
    (acc : list Document) :
  truthy (resolve_text item) = false ->
  create_documents_loop (item :: rest) acc = create_documents_loop rest acc.
Proof. intros H. cbn [create_documents_loop]. now rewrite H. Qed.

Lemma create_documents_loop_record (item : dict) (s : str) (chunks : list str)
    (rest : list dict) (acc : list Document) :
  resolve_text item = VStr s -> s <> [] ->
  chunk_text (List.length (preprocess_text s)) (preprocess_text s)
    default_chunk_size default_overlap = Returns chunks ->
  create_documents_loop (item :: rest) acc
  = create_documents_loop rest (acc ++ record_documents item chunks).
Proof.
  intros Hr Hs Hc. cbn [create_documents_loop]. rewrite Hr.
  destruct s as [|c s']; [congruence|]. cbn [truthy negb].
  rewrite Hc. cbn [bind]. now rewrite emit_chunks_spec.
Qed.

(** A record whose normalised text is shorter than 50 characters adds no
    document. *)
Lemma create_documents_loop_short (item : dict) (s : str)
    (rest : list dict) (acc : list Document) :
  resolve_text item = VStr s -> len (preprocess_text s) < 50 ->
  create_documents_loop (item :: rest) acc = create_documents_loop rest acc.
Proof.
  intros Hr Hlen. destruct s as [|c s'].
  - apply create_documents_loop_skip. now rewrite Hr.
  - assert (Hc : chunk_text (List.length (preprocess_text (c :: s')))
                    (preprocess_text (c :: s')) default_chunk_size default_overlap
                  = Returns [preprocess_text (c :: s')]).
    { unfold chunk_text, default_chunk_size.
      destruct (Z.leb_spec (len (preprocess_text (c :: s'))) 500); [reflexivity | lia]. }
    rewrite (create_documents_loop_record item (c :: s') _ rest acc Hr
               ltac:(discriminate) Hc).
    unfold record_documents. cbn [enumerate filter snd]. unfold survives.
    pose proof (strip_len (preprocess_text (c :: s'))) as Hstrip.
    destruct (Z.ltb_spec (len (strip (preprocess_text (c :: s')))) 50); [|lia].
    simpl. now rewrite app_nil_r.
Qed.

Lemma record_documents_long (item : dict) (chunks : list str) :
  Forall (fun d => 50 <= len (strip (content d))) (record_documents item chunks).
Proof.
  apply Forall_forall. intros d Hd.
  apply In_record_documents in Hd as (n & c & _ & Hs & ->). simpl.
  unfold survives in Hs. destruct (Z.ltb_spec (len (strip c)) 50); [discriminate | lia].
Qed.

(** A resolved value that is true and not a string makes [re.sub] raise. *)
Lemma create_documents_loop_not_string (item : dict) (rest : list dict)
    (acc : list Document) :
  truthy (resolve_text item) = true ->
  (forall s, resolve_text item <> VStr s) ->
  create_documents_loop (item :: rest) acc = Raises not_a_string.
Proof.
  intros Ht Hn. cbn [create_documents_loop]. rewrite Ht. cbn [negb].
  destruct (resolve_text item) as [|z|m e|s|l|d]; try reflexivity.
  now destruct (Hn s).
Qed.

Lemma create_documents_loop_long (data : list dict) :
  forall (acc docs : list Document),
    Forall (fun d => 50 <= len (strip (content d))) acc ->
    create_documents_loop data acc = Returns docs ->
    Forall (fun d => 50 <= len (strip (content d))) docs.
Proof.
  induction data as [|item rest IH]; intros acc docs Hacc Hrun.
  - simpl in Hrun. now inversion Hrun; subst.
  - destruct (truthy (resolve_text item)) eqn:Ht.
    + destruct (resolve_text item) as [|z|m e|s|l|d] eqn:Hr;
        try (rewrite create_documents_loop_not_string in Hrun;
             [discriminate Hrun | rewrite Hr; exact Ht
              | intros s'; rewrite Hr; discriminate]).
      destruct (default_chunking_returns (preprocess_text s)) as (chunks & Hc).
      rewrite (create_documents_loop_record item s chunks) in Hrun;
        [|exact Hr|now destruct s|exact Hc].
      apply (IH _ _ (proj2 (Forall_app _ _ _)
                       (conj Hacc (record_documents_long item chunks))) Hrun).
    + rewrite create_documents_loop_skip in Hrun by exact Ht.
      now apply (IH acc).
Qed.

(** [create_documents] never runs out of fuel; it raises only on a record
    whose resolved value is true and not a string. *)
Lemma create_documents_loop_returns (data : list dict) :
  Forall (fun item => truthy (resolve_text item) = false
                      \/ exists s, resolve_text item = VStr s) data ->
  forall acc, exists docs, create_documents_loop data acc = Returns docs.
Proof.
  induction 1 as [|item rest [Hf | [s Hs]] _ IH]; intros acc.
  - now exists acc.
  - rewrite create_documents_loop_skip by exact Hf. apply IH.
  - destruct s as [|c s'].
    + rewrite create_documents_loop_skip by (now rewrite Hs). apply IH.
    + destruct (default_chunking_returns (preprocess_text (c :: s'))) as (chunks & Hc).
      rewrite (create_documents_loop_record item (c :: s') chunks rest acc Hs
                 ltac:(discriminate) Hc).
      apply IH.
Qed.

Lemma first_long_string_find (item : dict) :
  first_long_string item
  = match find (fun kv => is_long_string (snd kv)) item with
    | Some kv => snd kv
    | None => VNone
    end.
Proof.
  induction item as [|[k v] r IH]; simpl; [reflexivity|].
  destruct v as [|z|m e|s|l|d]; simpl; try exact IH.
  destruct (100 <? len s); [reflexivity | exact IH].
Qed.

End AssemblerFacts.

Section AssemblerClaims.
Context {T : Tables}.

Open Scope Z_scope.

(** C1 (amended): for a record with a non-empty body, [create_documents]
    appends one document per surviving chunk, in order.  The [chunk_id] of
    a document is the 0-based position of its chunk among ALL chunks that
    [chunk_text] produced for the record, discarded ones included, and
    [total_chunks] is the number of all those chunks. *)
Theorem create_documents_chunk_numbering
    (item : dict) (s : str) (rest : list dict) (acc : list Document) :
  resolve_text item = VStr s -> s <> [] ->
  exists chunks,
    chunk_text (List.length (preprocess_text s)) (preprocess_text s)
      default_chunk_size default_overlap = Returns chunks
    /\ create_documents_loop (item :: rest) acc
       = create_documents_loop rest (acc ++ record_documents item chunks)
    /\ (forall d, In d (record_documents item chunks) ->
          exists n,
            nth_error chunks n = Some (content d)
            /\ survives (content d) = true
            /\ dict_get (meta d) "chunk_id" = Some (VInt (Z.of_nat n))
            /\ dict_get (meta d) "total_chunks"
               = Some (VInt (Z.of_nat (List.length chunks))))
    /\ (forall n c, nth_error chunks n = Some c -> survives c = true ->
          In (make_document item (Z.of_nat n) (Z.of_nat (List.length chunks)) c)
             (record_documents item chunks)).
Proof.
  intros Hr Hs.
  destruct (default_chunking_returns (preprocess_text s)) as (chunks & Hc).
  exists chunks. split; [exact Hc|].
  split; [now apply create_documents_loop_record with (s := s)|].
  split.
  - intros d Hd. apply In_record_documents in Hd as (n & c & Hn & Hsv & ->).
    exists n. simpl. auto.
  - intros n c Hn Hsv. apply In_record_documents. now exists n, c.
Qed.

(** C6 (amended): the body text of a record is the value of the first
    known field name (text, content, article, body) that is PRESENT in the
    record, whatever that value is; only when none of the four is present
    is it the first string-valued field longer than 100 characters.  A
    record whose resolved value is empty or [None] is skipped without
    error. *)
Theorem resolve_text_first_present
    (item : dict) (rest : list dict) (acc : list Document) :
  resolve_text item = resolve_text_spec item
  /\ (truthy (resolve_text_spec item) = false ->
      create_documents_loop (item :: rest) acc
      = create_documents_loop rest acc).
Proof.
  assert (H : resolve_text item = resolve_text_spec item).
  { unfold resolve_text, resolve_text_spec, known_fields, first_present,
      dict_has, dict_get_default.
    repeat match goal with
           | |- context [dict_get item ?k] => destruct (dict_get item k); [reflexivity|]
           end.
    apply first_long_string_find. }
  split; [exact H|]. rewrite <- H. apply create_documents_loop_skip.
Qed.

(** C9: every document that [create_documents] returns has a content whose
    trimmed length is at least 50; the documents of a record are cut from
    its chunks of trimmed length at least 50 only; and a record whose
    normalised body is shorter than 50 characters adds no document. *)
Theorem create_documents_min_length (data : list dict) (docs : list Document) :
  create_documents data = Returns docs ->
  Forall (fun d => 50 <= len (strip (content d))) docs
  /\ (forall item chunks d,
        In d (record_documents item chunks) ->
        In (content d) chunks /\ 50 <= len (strip (content d)))
  /\ (forall item s rest acc,
        resolve_text item = VStr s -> len (preprocess_text s) < 50 ->
        create_documents_loop (item :: rest) acc
        = create_documents_loop rest acc).
Proof.
  intros Hrun. split; [|split].
  - apply (create_documents_loop_long data [] docs); [constructor | exact Hrun].
  - intros item chunks d Hd. split.
    + apply In_record_documents in Hd as (n & c & Hn & _ & ->).
      simpl. eapply nth_error_In; eauto.
    + pose proof (record_documents_long item chunks) as H.
      rewrite Forall_forall in H. now apply H.
  - intros item s rest acc. apply create_documents_loop_short.
Qed.

End AssemblerClaims.

(** C1 (as stated) fails.  The normalised text is ["a"], 500 spaces and 100
    times ["b"]: the first chunk trims to ["a"] and is discarded, the second
    one survives.  The only document, at position 0 among one survivor,
    carries [chunk_id = 1] and [total_chunks = 2]. *)
Lemma create_documents_numbers_all_chunks :
  bind (@create_documents ascii_tables
          [[("text"%string,
             VStr (97%N :: List.concat (repeat (text " @") 500) ++ repeat 98%N 100))]])
       (fun docs => Returns (numbering docs))
  = Returns [(Some (VInt 1), Some (VInt 2))].
Proof. vm_compute. reflexivity. Qed.

Lemma create_documents_chunk_numbering_witness :
  exists chunks,
    @chunk_text ascii_tables
      (List.length (@preprocess_text ascii_tables (repeat 97%N 60)))
      (@preprocess_text ascii_tables (repeat 97%N 60))
      default_chunk_size default_overlap = Returns chunks
    /\ @create_documents_loop ascii_tables
         [[("text"%string, VStr (repeat 97%N 60))]] []
       = @create_documents_loop ascii_tables []
           ([] ++ @record_documents ascii_tables
                    [("text"%string, VStr (repeat 97%N 60))] chunks).
Proof.
  destruct (@create_documents_chunk_numbering ascii_tables
              [("text"%string, VStr (repeat 97%N 60))] (repeat 97%N 60) [] [])
    as (chunks & Hc & Hloop & _).
  - reflexivity.
  - discriminate.
  - exists chunks. split; [exact Hc | exact Hloop].
Defined.

(** C6 (as stated) fails: a record whose ['text'] is present and empty is
    skipped although its ['content'] holds a usable text, which alone would
    give a document. *)
Lemma create_documents_skips_empty_text :
  dict_get [("text"%string, VStr []); ("content"%string, VStr (repeat 97%N 120))]
    "content" = Some (VStr (repeat 97%N 120))
  /\ @create_documents ascii_tables
       [[("text"%string, VStr []); ("content"%string, VStr (repeat 97%N 120))]]
     = Returns []
  /\ @create_documents ascii_tables [[("content"%string, VStr (repeat 97%N 120))]]
     <> Returns [].
Proof.
  split; [reflexivity|]. split; [reflexivity|]. vm_compute. discriminate.
Qed.

Lemma resolve_text_first_present_witness :
  @create_documents_loop ascii_tables
    [[("text"%string, VStr []); ("content"%string, VStr (repeat 97%N 120))]] []
  = @create_documents_loop ascii_tables [] [].
Proof.
  refine (proj2 (@resolve_text_first_present ascii_tables
                   [("text"%string, VStr []); ("content"%string, VStr (repeat 97%N 120))]
                   [] []) _).
  reflexivity.
Defined.

Lemma create_documents_min_length_witness :
  Forall (fun d => (50 <= len (@strip ascii_tables (content d)))%Z)
    [make_document [("text"%string, VStr (repeat 97%N 60))] 0 1 (repeat 97%N 60)].
Proof.
  refine (proj1 (@create_documents_min_length ascii_tables
                   [[("text"%string, VStr (repeat 97%N 60))]]
                   [make_document [("text"%string, VStr (repeat 97%N 60))] 0 1
                      (repeat 97%N 60)] _)).
  vm_compute. reflexivity.
Defined.

(** ** The question handler *)

Section QueryFacts.
Context {C : Collaborators}.

Open Scope Z_scope.

Lemma doc_text_format (docs : list HaystackDocument) :
  map doc_text (map format_document docs) = map doc_content docs.
Proof. rewrite map_map. apply map_ext. reflexivity. Qed.

(** [query] runs the pipeline with the [top_k] it was given. *)
Lemma query_top_k (self : TurkishRAGPipeline) (top_k : Z) :
  retriever_top_k
    (if negb (retriever_top_k self =? top_k) then set_top_k self top_k else self)
  = top_k.
Proof.
  destruct (Z.eqb_spec (retriever_top_k self) top_k); simpl; auto.
Qed.

Lemma query_model (self : TurkishRAGPipeline) (top_k : Z) :
  model (if negb (retriever_top_k self =? top_k) then set_top_k self top_k else self)
  = model self.
Proof. destruct (negb (retriever_top_k self =? top_k)); reflexivity. Qed.

(** What the [try] block returns when nothing is raised. *)
Lemma query_body_ok (self : TurkishRAGPipeline) (question : str) (response : dict) :
  query_body self question = Ok response ->
  exists answer docs,
    response = [ ("answer"%string, VStr answer);
                 ("documents"%string, VList docs);
                 ("query"%string, VStr question) ].
Proof.
  unfold query_body. destruct (pipeline_run _ question) as [r|e]; [|discriminate].
  cbn [and_then]. destruct (model self) as [m|].
  - destruct (generate_content m _) as [resp|e]; [|discriminate].
    cbn [and_then]. destruct (response_text resp) as [a|e]; [|discriminate].
    cbn [and_then]. intros H. inversion H. eauto.
  - cbn [and_then]. intros H. inversion H. eauto.
Qed.

(** The [try] block in terms of the generation step. *)
Lemma query_body_unfold (self : TurkishRAGPipeline) (question : str) :
  query_body self question
  = (r <- pipeline_run (retriever_top_k self) question ;;
     answer <- match model self with
               | Some m => generation m (generation_prompt r question)
               | None => Ok (no_key_answer (List.length (retrieved_documents r)))
               end ;;
     Ok [ ("answer"%string, VStr answer);
          ("documents"%string, VList (map format_document (retrieved_documents r)));
          ("query"%string, VStr question) ]).
Proof.
  unfold query_body, generation, generation_prompt.
  destruct (pipeline_run (retriever_top_k self) question) as [r|e]; [|reflexivity].
  cbn [and_then]. rewrite doc_text_format, length_map. reflexivity.
Qed.

(** C5 (amended): when retrieval succeeds and the generation step raises
    [e], [query] does not raise: its answer is the apology message with
    the text of [e], and its documents field is the EMPTY list, the
    retrieved documents are dropped. *)
Theorem query_generation_failure
    (self : TurkishRAGPipeline) (question : str) (top_k : Z)
    (r : run_result) (m : Model) (e : exn) :
  pipeline_run top_k question = Ok r ->
  model self = Some m ->
  generation m (generation_prompt r question) = Err e ->
  fst (query self question top_k) = apology_response e question.
Proof.
  intros Hrun Hm Hgen. unfold query.
  rewrite query_body_unfold, query_top_k, query_model, Hrun, Hm.
  cbn [and_then]. rewrite Hgen. reflexivity.
Qed.

(** C10: [query] always returns a dictionary with exactly the keys
    ['answer'], ['documents'] and ['query'], where ['query'] is the
    question as given, ['documents'] is a list and ['answer'] a string, on
    the success path and on the catch-all error path alike. *)
Theorem query_response_shape
    (self : TurkishRAGPipeline) (question : str) (top_k : Z) :
  dict_keys (fst (query self question top_k))
  = ["answer"; "documents"; "query"]%string
  /\ dict_get (fst (query self question top_k)) "query" = Some (VStr question)
  /\ (exists docs,
        dict_get (fst (query self question top_k)) "documents" = Some (VList docs))
  /\ (exists answer,
        dict_get (fst (query self question top_k)) "answer" = Some (VStr answer)).
Proof.
  unfold query.
  destruct (query_body _ question) as [response|e] eqn:Hb.
  - apply query_body_ok in Hb as (answer & docs & ->). cbn [fst].
    repeat split; [now exists docs | now exists answer].
  - cbn [fst]. repeat split; [now exists [] | now exists (apology e)].
Qed.

End QueryFacts.

(** C5 (as stated) fails: retrieval finds one document, the model call
    raises, and the response holds no document. *)
Lemma query_drops_documents_on_generation_failure :
  @retrieved_documents
    [("retriever"%string, [("documents"%string, [sample_document])])]
  = [sample_document]
  /\ dict_get
       (fst (@query failing_generation
               (failing_pipeline 5)
               (text "Galatasaray?") 5))
       "documents"
     = Some (VList [])
  /\ dict_get
       (fst (@query failing_generation
               (failing_pipeline 5)
               (text "Galatasaray?") 5))
       "documents"
     <> Some (VList [format_document sample_document]).
Proof.
  split; [reflexivity|]. split; [reflexivity|]. vm_compute. discriminate.
Qed.

Lemma query_generation_failure_witness :
  fst (@query failing_generation
         (failing_pipeline 3)
         (text "Galatasaray?") 5)
  = @apology_response (PyExc "RuntimeError" (text "quota")) (text "Galatasaray?").
Proof.
  apply (@query_generation_failure failing_generation
           (failing_pipeline 3)
           (text "Galatasaray?") 5
           [("retriever"%string, [("documents"%string, [sample_document])])]
           tt (PyExc "RuntimeError" (text "quota"))).
  - reflexivity.
  - reflexivity.
  - reflexivity.
Defined.

(** ** The scenarios of the specification, run on the model *)

Example scenario_short_text :
  @chunk_text ascii_tables 0 (text "A. B. C.") 500 50 = Returns [text "A. B. C."].
Proof. reflexivity. Qed.

(** 1200 characters without punctuation: three chunks, the second one
    starting at character 450. *)
Example scenario_three_chunks :
  @chunk_text ascii_tables 1200 (repeat 97%N 1200) 500 50
  = Returns [repeat 97%N 500; py_slice (repeat 97%N 1200) 450 950; repeat 97%N 300].
Proof. vm_compute. reflexivity. Qed.

Example scenario_no_records : @create_documents ascii_tables [] = Returns [].
Proof. reflexivity. Qed.

Example turkish_letters_code_points :
  turkish_letters
  = [231; 287; 305; 246; 351; 252; 199; 286; 73; 304; 214; 350; 220]%N.
Proof. vm_compute. reflexivity. Qed.

(** [500 * 0.7 = 350.0], [10 * 0.7 = 7.0] and [90 * 0.7 < 63] in binary64. *)
Example products_in_binary64 :
  (Float64.mul_0_7 500 = 350 * 2 ^ 53
   /\ Float64.mul_0_7 10 = 7 * 2 ^ 53
   /\ Float64.mul_0_7 90 < 63 * 2 ^ 53)%Z.
Proof. vm_compute. repeat split. Qed.

(** * Further properties *)

(** ** The normaliser, continued *)

Section NormalizerMore.
Context {T : Tables}.

Open Scope Z_scope.

Lemma collapse_length (s : str) (b : bool) :
  (List.length (collapse_ws b s) <= List.length s)%nat.
Proof.
  revert b. induction s as [|c r IH]; intros b; simpl; [lia|].
  destruct (isspace c); [destruct b|]; simpl;
    [specialize (IH true) | specialize (IH true) | specialize (IH false)]; lia.
Qed.

Lemma filter_length (f : char -> bool) (s : str) :
  (List.length (filter f s) <= List.length s)%nat.
Proof. induction s as [|c r IH]; simpl; [lia|]. destruct (f c); simpl; lia. Qed.

Lemma preprocess_text_length (t : str) :
  (List.length (preprocess_text t) <= List.length t)%nat.
Proof.
  unfold preprocess_text.
  etransitivity; [apply strip_length|].
  etransitivity; [apply filter_length|]. apply collapse_length.
Qed.

Lemma collapse_only_spaces (s : str) (b : bool) :
  Forall (fun c => isspace c = true -> c = SP) (collapse_ws b s).
Proof.
  revert b. induction s as [|c r IH]; intros b; simpl; [constructor|].
  destruct (isspace c) eqn:Ec; [destruct b|].
  - apply IH.
  - constructor; [easy | apply IH].
  - constructor; [congruence | apply IH].
Qed.

Lemma filter_Forall (P : char -> Prop) (f : char -> bool) (s : str) :
  Forall P s -> Forall P (filter f s).
Proof.
  induction 1 as [|c r Hc _ IH]; simpl; [constructor|].
  destruct (f c); [constructor|]; assumption.
Qed.

Lemma filter_nonspace_collapse (s : str) (b : bool) :
  filter nonspace (collapse_ws b s) = filter nonspace s.
Proof.
  revert b. induction s as [|c r IH]; intros b; simpl; [reflexivity|].
  unfold nonspace at 2. destruct (isspace c) eqn:Ec; simpl.
  - destruct b; simpl; [apply IH|].
    unfold nonspace at 1. rewrite isspace_SP. simpl. apply IH.
  - unfold nonspace at 1. rewrite Ec. simpl. now rewrite IH.
Qed.

Lemma filter_nonspace_lstrip (s : str) :
  filter nonspace (lstrip s) = filter nonspace s.
Proof.
  induction s as [|c r IH]; simpl; [reflexivity|].
  unfold nonspace at 2. destruct (isspace c) eqn:Ec; simpl; [exact IH|].
  unfold nonspace at 1. now rewrite Ec.
Qed.

Lemma filter_nonspace_rev (s : str) :
  filter nonspace (rev s) = rev (filter nonspace s).
Proof.
  induction s as [|c r IH]; simpl; [reflexivity|].
  rewrite filter_app, IH. simpl. destruct (nonspace c); simpl; [reflexivity|].
  now rewrite app_nil_r.
Qed.

Lemma filter_nonspace_strip (s : str) :
  filter nonspace (strip s) = filter nonspace s.
Proof.
  unfold strip, rstrip.
  rewrite filter_nonspace_rev, filter_nonspace_lstrip, filter_nonspace_rev.
  rewrite rev_involutive. apply filter_nonspace_lstrip.
Qed.

Lemma filter_filter (f g : char -> bool) (s : str) :
  filter f (filter g s) = filter (fun c => g c && f c) s.
Proof.
  induction s as [|c r IH]; simpl; [reflexivity|].
  destruct (g c); simpl; [destruct (f c)|]; now rewrite IH.
Qed.

Lemma filter_nil_iff (f : char -> bool) (s : str) :
  filter f s = [] <-> Forall (fun c => f c = false) s.
Proof.
  induction s as [|c r IH]; simpl; [split; constructor|].
  destruct (f c) eqn:E.
  - split; [discriminate|]. intros H. inversion H; congruence.
  - rewrite IH. split; [now constructor | now inversion 1].
Qed.

Lemma filter_kept_collapse (s : str) (b : bool) :
  filter (fun c => allowed c && nonspace c) (collapse_ws b s)
  = filter (fun c => allowed c && nonspace c) s.
Proof.
  revert b. induction s as [|c r IH]; intros b; simpl; [reflexivity|].
  unfold nonspace at 2. destruct (isspace c) eqn:Ec; simpl.
  - rewrite andb_false_r. destruct b; simpl; [apply IH|].
    unfold nonspace at 1. rewrite isspace_SP. simpl. rewrite andb_false_r. apply IH.
  - unfold nonspace at 1. rewrite Ec. simpl. now rewrite IH.
Qed.

Lemma preprocess_text_nonspace (t : str) :
  filter nonspace (preprocess_text t)
  = filter (fun c => allowed c && nonspace c) t.
Proof.
  unfold preprocess_text.
  rewrite filter_nonspace_strip, filter_filter. apply filter_kept_collapse.
Qed.

Lemma preprocess_text_len_le (t : str) :
  len (preprocess_text t) <= len t.
Proof. unfold len. pose proof (preprocess_text_length t). lia. Qed.

(** X1: normalising never lengthens a text. *)
Theorem preprocess_text_never_longer (t : str) :
  len (preprocess_text t) <= len t.
Proof.
  unfold len, preprocess_text.
  pose proof (strip_length (filter allowed (collapse_ws false t))).
  pose proof (filter_length allowed (collapse_ws false t)).
  pose proof (collapse_length t false).
  lia.
Qed.

(** X2: the normalised text holds allowed characters only, has no
    whitespace at either end, and its only whitespace character is the
    space U+0020: tabs and newlines are gone. *)
Theorem preprocess_text_output_shape (t : str) :
  all_allowed (preprocess_text t)
  /\ starts_clean (preprocess_text t)
  /\ ends_clean (preprocess_text t)
  /\ Forall (fun c => isspace c = true -> c = SP) (preprocess_text t).
Proof.
  destruct (preprocess_text_clean t) as (Ha & Hs & He).
  repeat split; try assumption.
  unfold preprocess_text. apply strip_Forall, filter_Forall, collapse_only_spaces.
Qed.

(** X3: apart from whitespace, the normalised text is the input with the
    disallowed characters deleted: the allowed non-whitespace characters
    are all kept, in their order, and nothing else is. *)
Theorem preprocess_text_keeps_allowed (t : str) :
  filter (fun c => negb (isspace c)) (preprocess_text t)
  = filter (fun c => allowed c && negb (isspace c)) t.
Proof.
  change (filter nonspace (preprocess_text t)
          = filter (fun c => allowed c && nonspace c) t).
  unfold preprocess_text.
  rewrite filter_nonspace_strip, filter_filter.
  apply filter_kept_collapse.
Qed.

(** X4: a second pass only collapses runs of spaces, and after two passes
    the text is a fixed point of the normaliser. *)
Theorem preprocess_text_second_pass (t : str) :
  preprocess_text (preprocess_text t) = collapse_ws false (preprocess_text t)
  /\ preprocess_text (preprocess_text (preprocess_text t))
     = preprocess_text (preprocess_text t).
Proof.
  split; [apply preprocess_text_twice|].
  rewrite (preprocess_text_twice t).
  rewrite preprocess_text_on_clean
    by (apply collapse_clean, preprocess_text_clean).
  apply collapse_collapse.
Qed.

(** X5: the normalised text is empty exactly when the input has no
    allowed character other than whitespace. *)
Theorem preprocess_text_empty_iff (t : str) :
  preprocess_text t = []
  <-> Forall (fun c => allowed c && negb (isspace c) = false) t.
Proof.
  rewrite <- (filter_nil_iff (fun c => allowed c && negb (isspace c)) t).
  change (preprocess_text t = []
          <-> filter (fun c => allowed c && nonspace c) t = []).
  rewrite <- preprocess_text_nonspace. split.
  - now intros ->.
  - intros E.
    pose proof (strip_starts_clean
                  (filter allowed (collapse_ws false t))) as Hs.
    fold (preprocess_text t) in Hs.
    destruct (preprocess_text t) as [|c r]; [reflexivity|].
    simpl in Hs, E. unfold nonspace at 1 in E. rewrite Hs in E. discriminate.
Qed.

End NormalizerMore.

(** ** The chunker, continued *)

Section ChunkerMore.
Context {T : Tables}.

Import Float64 FloatFacts.
Open Scope Z_scope.

Lemma firstn_Forall (P : char -> Prop) (n : nat) (s : str) :
  Forall P s -> Forall P (firstn n s).
Proof.
  intros H. revert n. induction H as [|c r Hc _ IH]; intros [|n]; simpl;
    constructor; auto.
Qed.

Lemma skipn_Forall (P : char -> Prop) (n : nat) (s : str) :
  Forall P s -> Forall P (skipn n s).
Proof.
  intros H. revert n. induction H as [|c r Hc Hr IH]; intros [|n]; simpl;
    try constructor; auto.
Qed.

Lemma py_slice_Forall (P : char -> Prop) (s : str) (a b : Z) :
  Forall P s -> Forall P (py_slice s a b).
Proof. intros H. unfold py_slice. now apply firstn_Forall, skipn_Forall. Qed.

Lemma py_slice_le_len (s : str) (a b : Z) : len (py_slice s a b) <= len s.
Proof.
  unfold py_slice, len. rewrite length_firstn, length_skipn. lia.
Qed.

Lemma carve_fst_len (t : str) (cs start : Z) :
  0 <= cs -> len (fst (carve t cs start)) <= cs.
Proof.
  intros Hcs. unfold carve.
  pose proof (py_slice_len_any t start (start + cs) ltac:(lia)) as Hw.
  destruct (start + cs <? len t); [|simpl; lia].
  destruct (int_gt_mul_0_7 _ cs); simpl; [|lia].
  etransitivity; [apply py_slice_le_len|]. lia.
Qed.

Lemma carve_fst_Forall (P : char -> Prop) (t : str) (cs start : Z) :
  Forall P t -> Forall P (fst (carve t cs start)).
Proof.
  intros H. unfold carve.
  destruct (start + cs <? len t); [|now apply py_slice_Forall].
  destruct (int_gt_mul_0_7 _ cs); simpl; now repeat apply py_slice_Forall.
Qed.

(** A property of every trimmed cut is a property of every chunk. *)
Lemma chunk_loop_Forall (P : str -> Prop) (t : str) (cs ov : Z) :
  (forall start, P (strip (fst (carve t cs start)))) ->
  forall (fuel : nat) (start : Z) (chunks r : list str),
    Forall P chunks ->
    chunk_loop fuel t cs ov start chunks = Returns r ->
    Forall P r.
Proof.
  intros HP. induction fuel as [|f IH]; intros start chunks r Hc Hrun;
    cbn [chunk_loop] in Hrun; destruct (start <? len t);
    try discriminate; try (now inversion Hrun; subst).
  pose proof (HP start) as Hcut.
  destruct (carve t cs start) as [c e]. simpl in Hcut.
  assert (Hc' : Forall P (chunks ++ [strip c]))
    by (apply Forall_app; split; [exact Hc | now constructor]).
  destruct (len t <=? e - ov); [now inversion Hrun; subst|].
  now apply (IH _ _ _ Hc' Hrun).
Qed.

Lemma chunk_text_Forall (P : str -> Prop) (fuel : nat) (t : str) (cs ov : Z)
    (chunks : list str) :
  (len t <= cs -> P t) ->
  (forall start, P (strip (fst (carve t cs start)))) ->
  chunk_text fuel t cs ov = Returns chunks ->
  Forall P chunks.
Proof.
  intros Hshort Hcut Hrun. unfold chunk_text in Hrun.
  destruct (Z.leb_spec (len t) cs).
  - inversion Hrun; subst. constructor; [now apply Hshort | constructor].
  - now apply (chunk_loop_Forall P t cs ov Hcut fuel 0 [] chunks).
Qed.

(** X6: whatever the overlap, no chunk is longer than the window
    ([chunk_size] is the maximum size of each chunk), and the chunks cut
    from a text longer than the window carry no surrounding whitespace. *)
Theorem chunk_text_chunks_bounded
    (fuel : nat) (t : str) (cs ov : Z) (chunks : list str) :
  0 <= cs ->
  chunk_text fuel t cs ov = Returns chunks ->
  Forall (fun c => len c <= cs) chunks
  /\ (cs < len t -> Forall (fun c => strip c = c) chunks).
Proof.
  intros Hcs Hrun. split.
  - apply (chunk_text_Forall _ fuel t cs ov chunks); [easy| |exact Hrun].
    intros start. etransitivity; [apply strip_len|]. now apply carve_fst_len.
  - intros Hlong.
    apply (chunk_text_Forall _ fuel t cs ov chunks); [lia| |exact Hrun].
    intros start. apply strip_idempotent.
Qed.

Lemma windows_from_cover (t : str) (ov : Z) (ws : list (Z * Z)) :
  0 <= ov ->
  forall lo, windows_from t ov lo ws ->
             forall i, lo <= i < len t -> covered ws i.
Proof.
  intros Hov. induction ws as [|[a b] r IH]; intros lo Hw i Hi; simpl in Hw.
  - lia.
  - destruct Hw as (-> & Ha & Hab & Hprog & Hr).
    destruct (Z.lt_ge_cases i b) as [Hib|Hib].
    + exists (lo, b). split; [now left | simpl; lia].
    + destruct (IH (b - ov) Hr i ltac:(lia)) as (w & Hin & Hw).
      exists w. split; [now right | exact Hw].
Qed.

(** X7: for [0 < overlap < window] with the overlap at most 70% of the
    window, the windows that [chunk_text] cuts from a text longer than the
    window cover it: every character position lies in some window. *)
Theorem chunk_text_windows_cover (fuel : nat) (t : str) (cs ov : Z) :
  0 < ov < cs -> 10 * ov <= 7 * cs -> cs <= 2 ^ 48 ->
  cs < len t -> len t <= Z.of_nat fuel ->
  exists ws,
    chunk_text fuel t cs ov = Returns (map (window_chunk t) ws)
    /\ forall i, 0 <= i < len t -> covered ws i.
Proof.
  intros Hov H70 Hcs Hlong Hf.
  destruct (chunk_loop_terminates t cs ov Hov H70 Hcs fuel 0 [])
    as (ws & Hrun & Hws); [lia | lia |].
  exists ws. split.
  - unfold chunk_text. destruct (Z.leb_spec (len t) cs); [lia | exact Hrun].
  - intros i Hi. apply (windows_from_cover t ov ws ltac:(lia) 0 Hws i Hi).
Qed.

(** X8: with [overlap >= window > 0] and a text longer than the window the
    cursor never moves forward, and [chunk_text] does not return. *)
Theorem chunk_text_diverges_when_overlap_ge_window (t : str) (cs ov : Z) :
  0 < cs <= ov -> cs < len t ->
  ~ exists fuel chunks, chunk_text fuel t cs ov = Returns chunks.
Proof.
  intros Hcs Hlong (fuel & chunks & Hrun). unfold chunk_text in Hrun.
  destruct (Z.leb_spec (len t) cs); [lia|].
  rewrite (chunk_loop_never_progresses t cs ov Hcs Hlong fuel 0 [] ltac:(lia)) in Hrun.
  discriminate Hrun.
Qed.

Lemma rfind_absent (s : str) (c : char) :
  Forall (fun x => x <> c) s -> rfind s c = -1.
Proof.
  induction 1 as [|x r Hx _ IH]; simpl; [reflexivity|].
  rewrite IH. simpl. destruct (N.eqb_spec x c); [contradiction | reflexivity].
Qed.

Lemma is_sentence_end_neq (x : char) :
  is_sentence_end x = false -> x <> DOT /\ x <> QUESTION /\ x <> EXCLAMATION.
Proof.
  intros H. repeat split; intros ->; discriminate H.
Qed.

(** Without sentence marks the full window is kept. *)
Lemma carve_plain (t : str) (cs start : Z) :
  0 < cs < 2 ^ 53 ->
  Forall (fun c => is_sentence_end c = false) t ->
  carve t cs start = (py_slice t start (start + cs), start + cs).
Proof.
  intros Hcs Ht. unfold carve. destruct (start + cs <? len t); [|reflexivity].
  assert (Hw : Forall (fun c => is_sentence_end c = false)
                 (py_slice t start (start + cs))) by now apply py_slice_Forall.
  rewrite !rfind_absent;
    try (eapply Forall_impl; [|exact Hw]; intros x Hx;
         now apply is_sentence_end_neq in Hx).
  destruct (int_gt_mul_0_7 _ cs) eqn:E; [|reflexivity].
  apply int_gt_mul_0_7_nonneg in E; [simpl in E; lia | exact Hcs].
Qed.

Lemma chunk_loop_plain (t : str) (cs ov : Z) :
  0 < cs < 2 ^ 53 -> 0 <= ov < cs ->
  Forall (fun c => is_sentence_end c = false) t ->
  forall (n fuel : nat) (start : Z) (chunks : list str),
    (n < fuel)%nat ->
    start + Z.of_nat n * (cs - ov) < len t <= start + Z.of_nat (S n) * (cs - ov) ->
    chunk_loop fuel t cs ov start chunks
    = Returns (chunks ++ map (window_chunk t)
                           (fixed_windows (S n) start (cs - ov) cs)).
Proof.
  intros Hcs Hov Ht. induction n as [|n IH]; intros fuel start chunks Hf Hn;
    (destruct fuel as [|f]; [lia|]).
  - rewrite chunk_loop_step by lia. rewrite carve_plain by assumption.
    destruct (Z.leb_spec (len t) (start + cs - ov)); [reflexivity | lia].
  - rewrite chunk_loop_step by nia. rewrite carve_plain by assumption.
    destruct (Z.leb_spec (len t) (start + cs - ov)); [nia|].
    rewrite (IH f (start + cs - ov)) by (try lia; nia).
    rewrite <- app_assoc. simpl.
    replace (start + (cs - ov)) with (start + cs - ov) by lia. reflexivity.
Qed.

(** X9: a text longer than the window that holds no ['.'], ['?'] or ['!']
    is cut into fixed windows: with stride [window - overlap], the chunks
    are the trimmed windows starting at 0, stride, 2 * stride, ..., as
    many as strides are needed to reach the end of the text. *)
Theorem chunk_text_without_marks
    (fuel n : nat) (t : str) (cs ov : Z) :
  0 < cs < 2 ^ 53 -> 0 <= ov < cs ->
  Forall (fun c => is_sentence_end c = false) t ->
  cs < len t ->
  Z.of_nat n * (cs - ov) < len t <= Z.of_nat (S n) * (cs - ov) ->
  (n < fuel)%nat ->
  chunk_text fuel t cs ov
  = Returns (map (window_chunk t) (fixed_windows (S n) 0 (cs - ov) cs)).
Proof.
  intros Hcs Hov Ht Hlong Hn Hf. unfold chunk_text.
  destruct (Z.leb_spec (len t) cs); [lia|].
  rewrite (chunk_loop_plain t cs ov Hcs Hov Ht n fuel 0 []); [reflexivity| lia | lia].
Qed.

End ChunkerMore.

Lemma chunk_text_chunks_bounded_witness :
  Forall (fun c => (len c <= 10)%Z)
    [text "aaaaaaaa."; text "aa.aaaaaaa"; text "aaaaaa"].
Proof.
  refine (proj1 (@chunk_text_chunks_bounded ascii_tables 19
                   (text "aaaaaaaa.aaaaaaaaaa") 10 3
                   [text "aaaaaaaa."; text "aa.aaaaaaa"; text "aaaaaa"] _ _)).
  - lia.
  - vm_compute. reflexivity.
Defined.

Lemma chunk_text_windows_cover_witness :
  exists ws,
    @chunk_text ascii_tables 19 (text "aaaaaaaa.aaaaaaaaaa") 10 3
    = Returns (map (@window_chunk ascii_tables (text "aaaaaaaa.aaaaaaaaaa")) ws)
    /\ forall i, (0 <= i < len (text "aaaaaaaa.aaaaaaaaaa"))%Z -> covered ws i.
Proof.
  apply (@chunk_text_windows_cover ascii_tables 19 (text "aaaaaaaa.aaaaaaaaaa") 10 3).
  - lia.
  - lia.
  - vm_compute. discriminate.
  - vm_compute. reflexivity.
  - vm_compute. discriminate.
Defined.

Lemma chunk_text_diverges_when_overlap_ge_window_witness :
  ~ exists fuel chunks, @chunk_text ascii_tables fuel (text "abcd") 3 3 = Returns chunks.
Proof.
  apply (@chunk_text_diverges_when_overlap_ge_window ascii_tables (text "abcd") 3 3).
  - lia.
  - vm_compute. reflexivity.
Defined.

Lemma chunk_text_without_marks_witness :
  @chunk_text ascii_tables 3 (repeat 97%N 1200) 500 50
  = Returns (map (@window_chunk ascii_tables (repeat 97%N 1200))
               (fixed_windows 3 0 (500 - 50) 500)).
Proof.
  apply (@chunk_text_without_marks ascii_tables 3 2 (repeat 97%N 1200) 500 50).
  - split; [lia | vm_compute; reflexivity].
  - lia.
  - apply Forall_forall. intros c Hc. apply repeat_spec in Hc. now subst c.
  - vm_compute. reflexivity.
  - split; vm_compute; [reflexivity | discriminate].
  - lia.
Defined.

(** ** The document assembler, continued *)

Section AssemblerMore.
Context {T : Tables}.

Open Scope Z_scope.

(** A property of the documents of every record is a property of every
    document returned. *)
Lemma create_documents_loop_invariant (P : Document -> Prop) :
  (forall item s chunks,
      resolve_text item = VStr s ->
      chunk_text (List.length (preprocess_text s)) (preprocess_text s)
        default_chunk_size default_overlap = Returns chunks ->
      Forall P (record_documents item chunks)) ->
  forall (data : list dict) (acc docs : list Document),
    Forall P acc ->
    create_documents_loop data acc = Returns docs ->
    Forall P docs.
Proof.
  intros HP. induction data as [|item rest IH]; intros acc docs Hacc Hrun.
  - simpl in Hrun. now inversion Hrun; subst.
  - destruct (truthy (resolve_text item)) eqn:Ht.
    + destruct (resolve_text item) as [|z|m e|s|l|d] eqn:Hr;
        try (rewrite create_documents_loop_not_string in Hrun;
             [discriminate Hrun | rewrite Hr; exact Ht
              | intros s'; rewrite Hr; discriminate]).
      destruct (default_chunking_returns (preprocess_text s)) as (chunks & Hc).
      rewrite (create_documents_loop_record item s chunks) in Hrun;
        [|exact Hr|now destruct s|exact Hc].
      apply (IH _ _ (proj2 (Forall_app _ _ _)
                       (conj Hacc (HP item s chunks Hr Hc))) Hrun).
    + rewrite create_documents_loop_skip in Hrun by exact Ht.
      now apply (IH acc).
Qed.

Lemma record_documents_well_numbered (item : dict) (chunks : list str) :
  Forall well_numbered (record_documents item chunks).
Proof.
  apply Forall_forall. intros d Hd.
  apply In_record_documents in Hd as (n & c & Hn & _ & ->).
  assert (Hlt : (n < List.length chunks)%nat)
    by (apply nth_error_Some; congruence).
  repeat split.
  exists (Z.of_nat n), (Z.of_nat (List.length chunks)).
  repeat split; lia.
Qed.

(** The chunks that the default call cuts from a normalised text. *)
Lemma default_chunks_shape (s : str) (chunks : list str) :
  chunk_text (List.length (preprocess_text s)) (preprocess_text s)
    default_chunk_size default_overlap = Returns chunks ->
  Forall (fun c => strip c = c /\ all_allowed c /\ len c <= 500) chunks.
Proof.
  destruct (preprocess_text_clean s) as (Ha & Hs & He).
  apply chunk_text_Forall.
  - intros Hshort. repeat split; [now apply strip_id | exact Ha | exact Hshort].
  - intros start. repeat split.
    + apply strip_idempotent.
    + now apply strip_Forall, carve_fst_Forall.
    + etransitivity; [apply strip_len|].
      apply (carve_fst_len (preprocess_text s) 500 start). lia.
Qed.

Lemma Forall_nth_error {A} (P : A -> Prop) (l : list A) (n : nat) (x : A) :
  Forall P l -> nth_error l n = Some x -> P x.
Proof.
  intros H Hn. rewrite Forall_forall in H. apply H.
  eapply nth_error_In; eauto.
Qed.

(** Where the loop stands after a run of records. *)
Lemma create_documents_loop_acc (data : list dict) :
  forall acc,
    create_documents_loop data acc
    = bind (create_documents_loop data [])
        (fun docs => Returns (acc ++ docs)).
Proof.
  induction data as [|item rest IH]; intros acc.
  - simpl. now rewrite app_nil_r.
  - cbn [create_documents_loop].
    destruct (negb (truthy (resolve_text item))); [apply IH|].
    destruct (resolve_text item) as [|z|m e|s|l|d]; try reflexivity.
    destruct (chunk_text _ (preprocess_text s) _ _) as [chunks|e|];
      try reflexivity.
    cbn [bind]. rewrite !emit_chunks_spec. cbn [app].
    rewrite IH. rewrite (IH (map _ _)).
    destruct (create_documents_loop rest []) as [docs|e|]; try reflexivity.
    cbn [bind]. now rewrite app_assoc.
Qed.

Lemma create_documents_loop_app (d1 d2 : list dict) :
  forall acc,
    create_documents_loop (d1 ++ d2) acc
    = bind (create_documents_loop d1 acc)
        (fun a => create_documents_loop d2 a).
Proof.
  induction d1 as [|item rest IH]; intros acc; [reflexivity|].
  cbn [app create_documents_loop].
  destruct (negb (truthy (resolve_text item))); [apply IH|].
  destruct (resolve_text item) as [|z|m e|s|l|d]; try reflexivity.
  destruct (chunk_text _ (preprocess_text s) _ _) as [chunks|e|];
    try reflexivity.
  cbn [bind]. apply IH.
Qed.

(** Every run of the loop either meets a bad record and raises, or
    returns. *)
Lemma create_documents_loop_classify (data : list dict) :
  forall acc,
    (Exists bad_record data
     /\ create_documents_loop data acc = Raises not_a_string)
    \/ (~ Exists bad_record data
        /\ exists docs, create_documents_loop data acc = Returns docs).
Proof.
  induction data as [|item rest IH]; intros acc.
  - right. split; [now inversion 1 | now exists acc].
  - destruct (truthy (resolve_text item)) eqn:Ht.
    + destruct (resolve_text item) as [|z|m e|s|l|d] eqn:Hr;
        try (left; split;
             [apply Exists_cons_hd; split;
              [now rewrite Hr | intros s'; rewrite Hr; discriminate]
             |apply create_documents_loop_not_string;
              [now rewrite Hr | intros s'; rewrite Hr; discriminate]]).
      destruct (default_chunking_returns (preprocess_text s)) as (chunks & Hc).
      rewrite (create_documents_loop_record item s chunks rest acc Hr
                 ltac:(now destruct s) Hc).
      destruct (IH (acc ++ record_documents item chunks))
        as [[Hbad Hrun] | [Hok Hrun]].
      * left. split; [now apply Exists_cons_tl | exact Hrun].
      * right. split; [|exact Hrun].
        intros H. inversion H as [? ? [_ Hns] | ? ? Htl]; subst.
        -- now apply (Hns s).
        -- now apply Hok.
    + rewrite create_documents_loop_skip by exact Ht.
      destruct (IH acc) as [[Hbad Hrun] | [Hok Hrun]].
      * left. split; [now apply Exists_cons_tl | exact Hrun].
      * right. split; [|exact Hrun].
        intros H. inversion H as [? ? [Htrue _] | ? ? Htl]; subst.
        -- congruence.
        -- now apply Hok.
Qed.

(** X10: [create_documents] raises [TypeError] exactly when some record
    resolves to a value that is true and not a string (a non-zero number,
    a non-empty list), and then returns no document at all; in every other
    case it returns. *)
Theorem create_documents_raises_iff (data : list dict) :
  (Exists bad_record data <-> create_documents data = Raises not_a_string)
  /\ (~ Exists bad_record data
      <-> exists docs, create_documents data = Returns docs).
Proof.
  unfold create_documents.
  destruct (create_documents_loop_classify data []) as [[Hbad Hrun] | [Hok Hrun]].
  - split; split; intros H; try assumption; try contradiction.
    destruct H as [docs H]. rewrite Hrun in H. discriminate H.
  - split; split; intros H; try assumption; try contradiction.
    destruct Hrun as [docs Hrun]. rewrite Hrun in H. discriminate H.
Qed.

(** X11: the records are processed independently and in order: the
    documents of [d1 ++ d2] are those of [d1] followed by those of [d2],
    and the call raises as soon as one of the two does. *)
Theorem create_documents_app (d1 d2 : list dict) :
  create_documents (d1 ++ d2)
  = bind (create_documents d1)
      (fun a => bind (create_documents d2) (fun b => Returns (a ++ b))).
Proof.
  unfold create_documents. rewrite create_documents_loop_app.
  destruct (create_documents_loop d1 []) as [a|e|]; try reflexivity.
  cbn [bind]. apply create_documents_loop_acc.
Qed.

(** X12: every document returned carries exactly the meta keys title,
    url, chunk_id, total_chunks and source, its source is ["wikipedia"],
    and its numbering is in range: [0 <= chunk_id < total_chunks]. *)
Theorem create_documents_well_numbered (data : list dict) (docs : list Document) :
  create_documents data = Returns docs -> Forall well_numbered docs.
Proof.
  intros Hrun.
  apply (create_documents_loop_invariant well_numbered) with (data := data) (acc := []);
    [|constructor|exact Hrun].
  intros item s chunks _ _. apply record_documents_well_numbered.
Qed.

(** X13: the content of every document returned is trimmed, holds allowed
    characters only, and has between 50 and 500 characters. *)
Theorem create_documents_content_shape (data : list dict) (docs : list Document) :
  create_documents data = Returns docs ->
  Forall (fun d => strip (content d) = content d
                   /\ all_allowed (content d)
                   /\ 50 <= len (content d) <= 500) docs.
Proof.
  intros Hrun.
  apply (create_documents_loop_invariant
           (fun d => strip (content d) = content d
                     /\ all_allowed (content d)
                     /\ 50 <= len (content d) <= 500))
    with (data := data) (acc := []); [|constructor|exact Hrun].
  intros item s chunks _ Hc. apply Forall_forall. intros d Hd.
  apply In_record_documents in Hd as (n & c & Hn & Hsv & ->). simpl.
  destruct (Forall_nth_error _ chunks n c (default_chunks_shape s chunks Hc) Hn)
    as (Hstrip & Hall & Hlen).
  repeat split; try assumption.
  unfold survives in Hsv. rewrite Hstrip in Hsv.
  destruct (Z.ltb_spec (len c) 50); [discriminate | lia].
Qed.

(** X14: a record whose body has at most 500 characters yields at most one
    document: the whole normalised body, numbered 0 of 1, when it has at
    least 50 characters, and nothing otherwise. *)
Theorem create_documents_short_record
    (item : dict) (s : str) (rest : list dict) (acc : list Document) :
  resolve_text item = VStr s -> len s <= 500 ->
  create_documents_loop (item :: rest) acc
  = create_documents_loop rest
      (acc ++ (if 50 <=? len (preprocess_text s)
               then [make_document item 0 1 (preprocess_text s)]
               else [])).
Proof.
  intros Hr Hlen.
  pose proof (preprocess_text_len_le s) as Hn.
  destruct (Z.leb_spec 50 (len (preprocess_text s))) as [H50|H50].
  - assert (Hs : s <> []) by (intros ->; vm_compute in H50; now apply H50).
    assert (Hc : chunk_text (List.length (preprocess_text s)) (preprocess_text s)
                   default_chunk_size default_overlap
                 = Returns [preprocess_text s]).
    { unfold chunk_text, default_chunk_size.
      destruct (Z.leb_spec (len (preprocess_text s)) 500); [reflexivity | lia]. }
    rewrite (create_documents_loop_record item s _ rest acc Hr Hs Hc).
    unfold record_documents. cbn [enumerate filter snd fst map List.length].
    unfold survives.
    destruct (preprocess_text_clean s) as (_ & Hsc & Hec).
    rewrite (strip_id _ Hsc Hec).
    destruct (Z.ltb_spec (len (preprocess_text s)) 50); [lia|].
    reflexivity.
  - rewrite app_nil_r. now apply create_documents_loop_short with (s := s).
Qed.

End AssemblerMore.

Lemma create_documents_well_numbered_witness :
  Forall well_numbered
    [make_document [("text"%string, VStr (repeat 97%N 60))] 0 1 (repeat 97%N 60)].
Proof.
  apply (@create_documents_well_numbered ascii_tables
           [[("text"%string, VStr (repeat 97%N 60))]]).
  vm_compute. reflexivity.
Defined.

Lemma create_documents_content_shape_witness :
  Forall (fun d => @strip ascii_tables (content d) = content d
                   /\ @all_allowed ascii_tables (content d)
                   /\ (50 <= len (content d) <= 500)%Z)
    [make_document [("text"%string, VStr (repeat 97%N 60))] 0 1 (repeat 97%N 60)].
Proof.
  apply (@create_documents_content_shape ascii_tables
           [[("text"%string, VStr (repeat 97%N 60))]]).
  vm_compute. reflexivity.
Defined.

Lemma create_documents_short_record_witness :
  @create_documents_loop ascii_tables
    [[("text"%string, VStr (repeat 97%N 60))]] []
  = @create_documents_loop ascii_tables []
      ([] ++ (if (50 <=? len (@preprocess_text ascii_tables (repeat 97%N 60)))%Z
              then [make_document [("text"%string, VStr (repeat 97%N 60))] 0 1
                      (@preprocess_text ascii_tables (repeat 97%N 60))]
              else [])).
Proof.
  apply (@create_documents_short_record ascii_tables
           [("text"%string, VStr (repeat 97%N 60))] (repeat 97%N 60) [] []).
  - reflexivity.
  - vm_compute. discriminate.
Defined.

(** ** The question handler and the other entry points *)

Section QueryMore.
Context {C : Collaborators} {R : RetrievalRun}.

Open Scope Z_scope.

Lemma query_stdout (self : TurkishRAGPipeline) (top_k : Z) :
  stdout (if negb (retriever_top_k self =? top_k) then set_top_k self top_k else self)
  = stdout self.
Proof. destruct (negb (retriever_top_k self =? top_k)); reflexivity. Qed.

(** The two ways [query] ends. *)
Lemma query_cases (self : TurkishRAGPipeline) (question : str) (top_k : Z) :
  (exists r a,
      pipeline_run top_k question = Ok r
      /\ answer_step self r question = Ok a
      /\ fst (query self question top_k) = success_response a r question
      /\ stdout (snd (query self question top_k)) = stdout self)
  \/ (exists e,
        fst (query self question top_k) = apology_response e question
        /\ stdout (snd (query self question top_k))
           = stdout self ++ [text "Error in RAG pipeline query: " ++ exn_str e]).
Proof.
  unfold query. rewrite query_body_unfold, query_top_k, query_model.
  destruct (pipeline_run top_k question) as [r|e] eqn:Hrun; cbn [and_then].
  - fold (answer_step self r question).
    destruct (answer_step self r question) as [a|e] eqn:Ha; cbn [and_then].
    + left. exists r, a. split; [reflexivity|]. split; [exact Ha|].
      split; [reflexivity|]. cbn [snd]. apply query_stdout.
    + right. exists e. split; [reflexivity|].
      cbn [snd print stdout]. now rewrite query_stdout.
  - right. exists e. split; [reflexivity|].
    cbn [snd print stdout]. now rewrite query_stdout.
Qed.

Lemma query_snd_fields (self : TurkishRAGPipeline) (question : str) (top_k : Z) :
  retriever_top_k (snd (query self question top_k)) = top_k
  /\ model (snd (query self question top_k)) = model self.
Proof.
  unfold query.
  destruct (query_body _ question); cbn [snd print retriever_top_k model];
    split; try apply query_top_k; apply query_model.
Qed.

(** X15: when retrieval raises [e], [query] answers with the apology
    message and the text of [e], returns no document, prints one line on
    the standard output and leaves [top_k] stored in the retriever. *)
Theorem query_retrieval_failure
    (self : TurkishRAGPipeline) (question : str) (top_k : Z) (e : exn) :
  pipeline_run top_k question = Err e ->
  fst (query self question top_k) = apology_response e question
  /\ stdout (snd (query self question top_k))
     = stdout self ++ [text "Error in RAG pipeline query: " ++ exn_str e]
  /\ retriever_top_k (snd (query self question top_k)) = top_k.
Proof.
  intros Hrun. split; [|split].
  - unfold query. rewrite query_body_unfold, query_top_k, Hrun. reflexivity.
  - unfold query. rewrite query_body_unfold, query_top_k, Hrun.
    cbn [and_then snd print stdout]. now rewrite query_stdout.
  - apply query_snd_fields.
Qed.

(** X16: without a model (no API key) and with a retrieval that
    succeeds, [query] answers with the fixed message that gives the number
    of retrieved documents, returns these documents formatted, in the
    retriever's order, and prints nothing. *)
Theorem query_without_model
    (self : TurkishRAGPipeline) (question : str) (top_k : Z) (r : run_result) :
  pipeline_run top_k question = Ok r ->
  model self = None ->
  fst (query self question top_k)
  = success_response (no_key_answer (List.length (retrieved_documents r))) r question
  /\ stdout (snd (query self question top_k)) = stdout self.
Proof.
  intros Hrun Hm. unfold query.
  rewrite query_body_unfold, query_top_k, query_model, Hrun, Hm.
  cbn [and_then fst snd]. split; [reflexivity | apply query_stdout].
Qed.

(** X17: with a model, a retrieval that succeeds and a generation that
    returns [a], [query] returns [a] as the answer together with the
    retrieved documents formatted, in the retriever's order, and the
    question; nothing is printed. *)
Theorem query_success
    (self : TurkishRAGPipeline) (question : str) (top_k : Z)
    (r : run_result) (m : Model) (a : str) :
  pipeline_run top_k question = Ok r ->
  model self = Some m ->
  generation m (generation_prompt r question) = Ok a ->
  fst (query self question top_k) = success_response a r question
  /\ stdout (snd (query self question top_k)) = stdout self.
Proof.
  intros Hrun Hm Hgen. unfold query.
  rewrite query_body_unfold, query_top_k, query_model, Hrun, Hm.
  cbn [and_then]. rewrite Hgen.
  cbn [and_then fst snd]. split; [reflexivity | apply query_stdout].
Qed.

(** X18: whatever happens, [query] leaves its [top_k] stored in the
    retriever and the model untouched, and prints at most one line. *)
Theorem query_state (self : TurkishRAGPipeline) (question : str) (top_k : Z) :
  retriever_top_k (snd (query self question top_k)) = top_k
  /\ model (snd (query self question top_k)) = model self
  /\ exists lines,
       stdout (snd (query self question top_k)) = stdout self ++ lines
       /\ (List.length lines <= 1)%nat.
Proof.
  destruct (query_snd_fields self question top_k) as [Hk Hm].
  split; [exact Hk|]. split; [exact Hm|].
  destruct (query_cases self question top_k)
    as [(r & a & _ & _ & _ & Hs) | (e & _ & Hs)].
  - exists []. rewrite app_nil_r. split; [exact Hs | simpl; lia].
  - eexists. split; [exact Hs | simpl; lia].
Qed.

Lemma contents_document_fields (docs : list HaystackDocument) :
  contents (map document_fields docs) = Ok (map VStr (map doc_content docs)).
Proof.
  induction docs as [|d r IH]; [reflexivity|].
  cbn [map contents]. unfold getitem at 1. cbn [document_fields dict_get String.eqb Ascii.eqb Bool.eqb].
  cbn [and_then]. rewrite IH. reflexivity.
Qed.

Lemma str_items_strings (ss : list str) (i : nat) :
  str_items i (map VStr ss) = Ok ss.
Proof.
  revert i. induction ss as [|s r IH]; intros i; [reflexivity|].
  cbn [map str_items]. rewrite IH. reflexivity.
Qed.

Lemma contents_has_text (docs : list dict) :
  Forall has_text docs -> exists ss, contents docs = Ok (map VStr ss).
Proof.
  induction 1 as [|d r [s Hs] _ [ss IH]]; [now exists []|].
  exists (s :: ss). cbn [contents]. unfold getitem. rewrite Hs.
  cbn [and_then]. rewrite IH. reflexivity.
Qed.

Lemma contents_missing (docs : list dict) :
  Exists (fun d => dict_get d "content" = None) docs ->
  contents docs = Err (key_error "content").
Proof.
  induction docs as [|d r IH]; intros H; [inversion H|].
  cbn [contents]. unfold getitem.
  destruct (dict_get d "content") as [v|] eqn:Hd; [|reflexivity].
  cbn [and_then]. rewrite IH; [reflexivity|].
  inversion H; subst; [congruence | assumption].
Qed.

Lemma get_context_only_ok (self : TurkishRAGPipeline) (question : str)
    (top_k : Z) (r : run_result) :
  pipeline_run_retrieval top_k question = Ok r ->
  get_context_only self question top_k
  = (map document_fields (retrieved_documents r), set_top_k self top_k).
Proof. intros H. unfold get_context_only. cbn [set_top_k retriever_top_k]. now rewrite H. Qed.

Lemma generate_body_formatted (self : TurkishRAGPipeline) (question : str)
    (r : run_result) :
  generate_body self question (map document_fields (retrieved_documents r))
  = answer_step self r question.
Proof.
  unfold generate_body, answer_step, generation, generation_prompt, py_join.
  rewrite contents_document_fields. cbn [and_then].
  rewrite str_items_strings. cbn [and_then]. rewrite length_map. reflexivity.
Qed.

(** X19: [get_context_only] returns dictionaries with exactly the keys
    content, title, url and score, each with a string under content, and
    it stores [top_k] in the retriever in every case, also when the
    retrieval raises. *)
Theorem get_context_only_shape
    (self : TurkishRAGPipeline) (question : str) (top_k : Z) :
  Forall (fun d => dict_keys d = document_keys /\ has_text d)
    (fst (get_context_only self question top_k))
  /\ retriever_top_k (snd (get_context_only self question top_k)) = top_k
  /\ model (snd (get_context_only self question top_k)) = model self.
Proof.
  unfold get_context_only. cbn [set_top_k retriever_top_k].
  destruct (pipeline_run_retrieval top_k question) as [r|e]; cbn [fst snd].
  - split; [|split; reflexivity].
    apply Forall_forall. intros d Hd. apply in_map_iff in Hd as (doc & <- & _).
    split; [reflexivity|]. now exists (doc_content doc).
  - split; [constructor | split; reflexivity].
Qed.

(** X20: retrieval followed by generation gives what [query] gives.  When
    both runs of the pipeline return the same result and the answer step
    succeeds with [a], the documents of [query] are those of
    [get_context_only], and [generate_answer_with_context] on these
    documents returns [a], the answer of [query]. *)
Theorem query_is_retrieval_then_generation
    (self : TurkishRAGPipeline) (question : str) (top_k : Z)
    (r : run_result) (a : str) :
  pipeline_run top_k question = Ok r ->
  pipeline_run_retrieval top_k question = Ok r ->
  answer_step self r question = Ok a ->
  fst (query self question top_k)
  = [ ("answer"%string,
       VStr (fst (generate_answer_with_context
                    (snd (get_context_only self question top_k)) question
                    (fst (get_context_only self question top_k)))));
      ("documents"%string,
       VList (map VDict (fst (get_context_only self question top_k))));
      ("query"%string, VStr question) ].
Proof.
  intros Hrun Hret Ha.
  rewrite (get_context_only_ok self question top_k r Hret). cbn [fst snd].
  unfold generate_answer_with_context. rewrite generate_body_formatted.
  assert (Ha' : answer_step (set_top_k self top_k) r question = Ok a) by exact Ha.
  rewrite Ha'. cbn [fst]. rewrite map_map.
  unfold query. rewrite query_body_unfold, query_top_k, query_model, Hrun.
  cbn [and_then]. fold (answer_step self r question). rewrite Ha. reflexivity.
Qed.

(** X21: without a model, [generate_answer_with_context] on documents that
    all hold a string under ['content'] returns the fixed message with the
    number of documents, and prints nothing. *)
Theorem generate_without_model
    (self : TurkishRAGPipeline) (question : str) (context_docs : list dict) :
  model self = None ->
  Forall has_text context_docs ->
  generate_answer_with_context self question context_docs
  = (no_key_answer (List.length context_docs), self).
Proof.
  intros Hm Hdocs. destruct (contents_has_text context_docs Hdocs) as [ss Hc].
  unfold generate_answer_with_context, generate_body, py_join.
  rewrite Hc. cbn [and_then]. rewrite str_items_strings. cbn [and_then].
  now rewrite Hm.
Qed.

(** X22: a context document without the key ['content'] makes
    [generate_answer_with_context] return its apology with the text of the
    [KeyError], whether or not a model is configured, and print one
    line. *)
Theorem generate_missing_content
    (self : TurkishRAGPipeline) (question : str) (context_docs : list dict) :
  Exists (fun d => dict_get d "content" = None) context_docs ->
  generate_answer_with_context self question context_docs
  = (apology_generate (key_error "content"),
     print self (text "Error generating answer: " ++ exn_str (key_error "content"))).
Proof.
  intros H. unfold generate_answer_with_context, generate_body.
  now rewrite (contents_missing context_docs H).
Qed.

(** X23: [ask_question] never raises.  Its response has exactly the keys
    answer and query when [show_context] is false, and is the response of
    [query] otherwise; the answer is that of [query], the query is the
    question, and the retrieval always runs with [top_k = 5]. *)
Theorem ask_question_shape
    (self : TurkishRAGPipeline) (question : str) (show_context : bool) :
  exists response,
    fst (ask_question self question show_context) = Ok response
    /\ dict_keys response
       = (if show_context then ["answer"; "documents"; "query"]
          else ["answer"; "query"])%string
    /\ dict_get response "answer"
       = dict_get (fst (query self question 5)) "answer"
    /\ dict_get response "query" = Some (VStr question)
    /\ retriever_top_k (snd (ask_question self question show_context)) = 5.
Proof.
  unfold ask_question.
  pose proof (query_snd_fields self question 5) as [Hk _].
  assert (Hshape : exists a docs,
             fst (query self question 5)
             = [ ("answer"%string, VStr a); ("documents"%string, VList docs);
                 ("query"%string, VStr question) ]).
  { destruct (query_cases self question 5)
      as [(r & a & _ & _ & Hq & _) | (e & Hq & _)]; rewrite Hq;
      do 2 eexists; reflexivity. }
  destruct Hshape as (a & docs & Hq).
  destruct (query self question 5) as [resp self'] eqn:E.
  cbn [fst snd] in *. subst resp.
  destruct show_context; cbn [fst snd].
  - eexists. repeat split. exact Hk.
  - eexists. repeat split. exact Hk.
Qed.

End QueryMore.

Lemma query_retrieval_failure_witness :
  fst (@query failing_retrieval (pipeline_object failing_retrieval (Some tt) 3)
         (text "Galatasaray?") 5)
  = @apology_response (PyExc "RuntimeError" (text "index")) (text "Galatasaray?").
Proof.
  refine (proj1 (@query_retrieval_failure failing_retrieval
                   (pipeline_object failing_retrieval (Some tt) 3)
                   (text "Galatasaray?") 5
                   (PyExc "RuntimeError" (text "index")) _)).
  reflexivity.
Defined.

Lemma query_without_model_witness :
  fst (@query working (pipeline_object working None 3) (text "Galatasaray?") 5)
  = success_response
      (no_key_answer (List.length (@retrieved_documents sample_run)))
      sample_run (text "Galatasaray?").
Proof.
  refine (proj1 (@query_without_model working (pipeline_object working None 3)
                   (text "Galatasaray?") 5 sample_run _ _)).
  - reflexivity.
  - reflexivity.
Defined.

Lemma query_success_witness :
  fst (@query working (pipeline_object working (Some tt) 3) (text "Galatasaray?") 5)
  = success_response (text "Galatasaray 1905") sample_run (text "Galatasaray?").
Proof.
  refine (proj1 (@query_success working (pipeline_object working (Some tt) 3)
                   (text "Galatasaray?") 5 sample_run tt
                   (text "Galatasaray 1905") _ _ _)).
  - reflexivity.
  - reflexivity.
  - reflexivity.
Defined.

Lemma query_is_retrieval_then_generation_witness :
  fst (@query working (pipeline_object working (Some tt) 3) (text "Galatasaray?") 5)
  = [ ("answer"%string,
       VStr (fst (@generate_answer_with_context working
                    (snd (@get_context_only working working_retrieval
                            (pipeline_object working (Some tt) 3)
                            (text "Galatasaray?") 5))
                    (text "Galatasaray?")
                    (fst (@get_context_only working working_retrieval
                            (pipeline_object working (Some tt) 3)
                            (text "Galatasaray?") 5)))));
      ("documents"%string,
       VList (map VDict
                (fst (@get_context_only working working_retrieval
                        (pipeline_object working (Some tt) 3)
                        (text "Galatasaray?") 5))));
      ("query"%string, VStr (text "Galatasaray?")) ].
Proof.
  apply (@query_is_retrieval_then_generation working working_retrieval
           (pipeline_object working (Some tt) 3) (text "Galatasaray?") 5
           sample_run (text "Galatasaray 1905")).
  - reflexivity.
  - reflexivity.
  - reflexivity.
Defined.

Lemma generate_without_model_witness :
  @generate_answer_with_context working (pipeline_object working None 5)
    (text "Galatasaray?") [[("content"%string, VStr (text "Galatasaray 1905"))]]
  = (no_key_answer 1, pipeline_object working None 5).
Proof.
  apply (@generate_without_model working (pipeline_object working None 5)
           (text "Galatasaray?") [[("content"%string, VStr (text "Galatasaray 1905"))]]).
  - reflexivity.
  - constructor; [|constructor]. now exists (text "Galatasaray 1905").
Defined.

Lemma generate_missing_content_witness :
  @generate_answer_with_context working (pipeline_object working (Some tt) 5)
    (text "Galatasaray?") [[("title"%string, VStr (text "Galatasaray SK"))]]
  = (apology_generate (key_error "content"),
     @print working (pipeline_object working (Some tt) 5)
       (text "Error generating answer: " ++ exn_str (key_error "content"))).
Proof.
  apply (@generate_missing_content working (pipeline_object working (Some tt) 5)
           (text "Galatasaray?") [[("title"%string, VStr (text "Galatasaray SK"))]]).
  apply Exists_cons_hd. reflexivity.
Defined.
